(** * personal-ai-teacher: the chat page script [script.js]

    A shallow embedding of the page script: the completion requester
    [getGeminiResponse] (a fallback loop over model identifiers), the
    conversation view [sendMessage] and the rendering helpers, followed by
    the properties of the specification that concern them.

    Conventions of the embedding.
    - A JavaScript string is a [string]; each [ascii] stands for one code
      unit in the range U+0000..U+00FF.  On that range [trim] and
      [toLowerCase] are written out in full.
    - The page is a [world]: the fields of the five DOM elements the script
      holds plus a [trace] of every effect, oldest first.
    - Code runs in the monad [M]: a computation takes a world and gives back
      either a value or a thrown exception, and the next world.  [await] is
      sequencing: a computation follows one invocation of a handler.  In
      the browser other handlers may run while that invocation awaits, so
      what is stated of a run is stated of the effects of the invocation
      itself and of their order.
    - The network and the engine's number printing are the [browser]. *)

From Stdlib Require Import String Ascii List Bool ZArith NArith QArith Lia.
From Stdlib Require Import DecimalString.
Import ListNotations.
Close Scope Q_scope.
Open Scope string_scope.
Set Warnings "-register-all".

(* ================================================================== *)
(** ** Strings *)

Module Str.

(** WhiteSpace and LineTerminator code units below U+0100:
    TAB, LF, VT, FF, CR, SPACE and NO-BREAK SPACE. *)
Definition isWhiteSpace (c : ascii) : bool :=
  let n := N_of_ascii c in
  (((9 <=? n) && (n <=? 13)) || (n =? 32) || (n =? 160))%N.

Fixpoint trimStart (s : string) : string :=
  match s with
  | EmptyString => EmptyString
  | String c s' => if isWhiteSpace c then trimStart s' else s
  end.

Fixpoint trimEnd (s : string) : string :=
  match s with
  | EmptyString => EmptyString
  | String c s' =>
      match trimEnd s' with
      | EmptyString => if isWhiteSpace c then EmptyString else String c EmptyString
      | t => String c t
      end
  end.

(** [String.prototype.trim] *)
Definition trim (s : string) : string := trimEnd (trimStart s).

(** Lower-casing of one code unit: A-Z, and the Latin-1 capitals
    U+00C0..U+00DE except the multiplication sign U+00D7. *)
Definition lowerChar (c : ascii) : ascii :=
  let n := N_of_ascii c in
  if (((65 <=? n) && (n <=? 90))
      || ((192 <=? n) && (n <=? 222) && negb (n =? 215)))%N
  then ascii_of_N (n + 32) else c.

(** [String.prototype.toLowerCase] *)
Fixpoint toLowerCase (s : string) : string :=
  match s with
  | EmptyString => EmptyString
  | String c s' => String (lowerChar c) (toLowerCase s')
  end.

(** [String.prototype.includes]: [needle] occurs somewhere in [s]. *)
Fixpoint includes (s needle : string) : bool :=
  prefix needle s
  || match s with
     | EmptyString => false
     | String _ s' => includes s' needle
     end.

(** Number-to-string of a status code or an array index. *)
Definition ofZ (z : Z) : string := NilZero.string_of_int (Z.to_int z).
Definition ofNat (n : nat) : string := NilZero.string_of_uint (Nat.to_uint n).

(** Every occurrence of the code unit [c] replaced by [by_]
    ([s.replace(/c/g, by_)] for a one-character pattern and a replacement
    without dollar patterns). *)
Fixpoint replaceAll (c : ascii) (by_ : string) (s : string) : string :=
  match s with
  | EmptyString => EmptyString
  | String d s' =>
      if Ascii.eqb d c then by_ ++ replaceAll c by_ s'
      else String d (replaceAll c by_ s')
  end.

End Str.

(* ================================================================== *)
(** ** JavaScript values, as far as parsed JSON and the script need them *)

Inductive value : Type :=
| VUndefined
| VNull
| VBool (b : bool)
| VNumber (q : Q)
| VString (s : string)
| VArray (items : list value)
| VObject (fields : list (string * value)).

(** ToBoolean.  A parsed JSON number is never NaN, so a number is falsy
    exactly when it is zero. *)
Definition truthy (v : value) : bool :=
  match v with
  | VUndefined | VNull => false
  | VBool b => b
  | VNumber q => negb (Qnum q =? 0)%Z
  | VString s => negb (s =? "")
  | VArray _ | VObject _ => true
  end.

Fixpoint lookup (name : string) (fields : list (string * value)) : value :=
  match fields with
  | [] => VUndefined
  | (k, v) :: rest => if k =? name then v else lookup name rest
  end.

(** A property key: [v.name] or [v[i]]. *)
Inductive key : Type :=
| Dot (name : string)
| At (i : nat).

Definition keyName (k : key) : string :=
  match k with
  | Dot name => name
  | At i => Str.ofNat i
  end.

(** Reading a property of a value that is neither [undefined] nor [null].
    The names the script reads ([candidates], [content], [parts], [text])
    are on no built-in prototype, so on arrays, strings, numbers and
    booleans they are [undefined]. *)
Definition getProperty (v : value) (k : key) : value :=
  match v with
  | VObject fields => lookup (keyName k) fields
  | VArray items =>
      match k with
      | At i => nth i items VUndefined
      | Dot _ => VUndefined
      end
  | VString s =>
      match k with
      | At i =>
          match String.get i s with
          | Some c => VString (String c EmptyString)
          | None => VUndefined
          end
      | Dot _ => VUndefined
      end
  | _ => VUndefined
  end.

(** Exceptions: every value the script can see thrown is an Error-like
    object with a [name] and a [message]. *)
Record exn : Type := mkExn { err_name : string; err_message : string }.

Definition Error (msg : string) : exn :=
  {| err_name := "Error"; err_message := msg |}.
Definition TypeError (msg : string) : exn :=
  {| err_name := "TypeError"; err_message := msg |}.

(** [String(err)], that is [Error.prototype.toString]. *)
Definition exnToString (e : exn) : string :=
  if err_name e =? "" then err_message e
  else if err_message e =? "" then err_name e
  else err_name e ++ ": " ++ err_message e.

(** The message of the TypeError raised when a property of [undefined] or
    [null] is read (the wording of V8). *)
Definition nullishReadMessage (v : value) (k : key) : string :=
  "Cannot read properties of "
  ++ (match v with VNull => "null" | _ => "undefined" end)
  ++ " (reading '" ++ keyName k ++ "')".

(* ================================================================== *)
(** ** Requests, responses and the page *)

Record part : Type := { part_text : string }.
Record content : Type := { content_role : string; content_parts : list part }.
Record generationConfig : Type :=
  { temperature : Q; topK : Z; topP : Q; maxOutputTokens : Z }.
Record requestBody : Type :=
  { body_contents : list content; body_generationConfig : generationConfig }.

Record request : Type :=
  { req_url : string;
    req_method : string;
    req_headers : list (string * string);
    req_body : requestBody (* the object given to JSON.stringify *) }.

(** What [response.json()] settles to. *)
Inductive jsonResult : Type :=
| JsonRejected (e : exn)
| JsonData (data : value).

Record response : Type :=
  { status : Z; statusText : string; json : jsonResult }.

(** [response.ok]: the status is in the range 200-299. *)
Definition ok (r : response) : bool := ((200 <=? status r) && (status r <=? 299))%Z.

(** What [fetch] settles to. *)
Inductive fetchResult : Type :=
| Rejected (e : exn)
| Responded (r : response).

(** The environment of the page: the answer of the network to the
    [n]-th call (counted from 0 over the life of the page), and the
    engine's printing of a number. *)
Record browser : Type :=
  { respond : nat -> request -> fetchResult;
    numberToString : Q -> string }.

Inductive event : Type :=
| Fetch (req : request)
| ConsoleWarn (label : string) (reason : string)
| ConsoleError (label : string) (e : exn)
| ShowError (msg : string)
| ClearError
| AppendMessage (className innerHTML : string)
| SetInputValue (s : string)
| SetSendDisabled (b : bool)
| SetLoading (b : bool)
| ScrollToBottom
| FocusInput.

Record world : Type :=
  { userInput_value : string;
    sendBtn_disabled : bool;
    loadingIndicator_active : bool;
    errorMessage_textContent : string;
    errorMessage_active : bool;
    chatContainer : list (string * string); (* className, innerHTML *)
    trace : list event }.

Definition isFetch (e : event) : bool :=
  match e with Fetch _ => true | _ => false end.

(** The network calls among some events, in order. *)
Fixpoint networkCalls (t : list event) : list request :=
  match t with
  | [] => []
  | Fetch req :: t' => req :: networkCalls t'
  | _ :: t' => networkCalls t'
  end.

(* ================================================================== *)
(** ** The monad of handlers *)

Inductive result (A : Type) : Type :=
| Normal (a : A)
| Throw (e : exn).
Arguments Normal {A} a.
Arguments Throw {A} e.

Definition M (A : Type) : Type := world -> result A * world.

Definition ret {A} (a : A) : M A := fun w => (Normal a, w).
Definition throw {A} (e : exn) : M A := fun w => (Throw e, w).

Definition bind {A B} (m : M A) (k : A -> M B) : M B :=
  fun w =>
    match m w with
    | (Normal a, w') => k a w'
    | (Throw e, w') => (Throw e, w')
    end.

(** [try { m } catch (e) { h e }] *)
Definition try_catch {A} (m : M A) (h : exn -> M A) : M A :=
  fun w =>
    match m w with
    | (Normal a, w') => (Normal a, w')
    | (Throw e, w') => h e w'
    end.

(** [try { m } finally { f }]: [f] always runs; when it completes normally
    the completion of [m] stands. *)
Definition try_finally {A} (m : M A) (f : M unit) : M A :=
  fun w =>
    match m w with
    | (r, w') =>
        match f w' with
        | (Normal _, w'') => (r, w'')
        | (Throw e, w'') => (Throw e, w'')
        end
    end.

(** A function that returns or throws, called from a handler. *)
Definition lift {A} (r : result A) : M A := fun w => (r, w).

Notation "x <- m ;; k" := (bind m (fun x => k))
  (at level 61, m at next level, right associativity).
Notation "m ;;; k" := (bind m (fun _ => k))
  (at level 61, right associativity).

Definition emit (e : event) (w : world) : world :=
  {| userInput_value := userInput_value w;
     sendBtn_disabled := sendBtn_disabled w;
     loadingIndicator_active := loadingIndicator_active w;
     errorMessage_textContent := errorMessage_textContent w;
     errorMessage_active := errorMessage_active w;
     chatContainer := chatContainer w;
     trace := trace w ++ [e] |}.

(** Reading [v.k] or [v[k]]: a TypeError on [undefined] and [null]. *)
Definition read (v : value) (k : key) : M value :=
  match v with
  | VUndefined | VNull => throw (TypeError (nullishReadMessage v k))
  | _ => ret (getProperty v k)
  end.

(* ================================================================== *)
(** ** Configuration *)

(** The models to try, newer ones first. *)
Definition MODELS_TO_TRY : list string :=
  [ "gemini-2.5-flash";
    "gemini-1.5-flash-latest";
    "gemini-2.0-flash";
    "gemini-1.5-flash";
    "gemini-pro" ].

Definition SYSTEM_PROMPT : string :=
"You are a personal AI teacher and guide. 
Your role is to help students understand any concept they want to learn.

Guidelines:
1. Explain step by step - break down complex topics into simple, digestible parts
2. Use simple language - avoid jargon, use everyday language whenever possible
3. Provide real-world examples - make abstract concepts concrete with practical examples
4. Keep explanations concise - but thorough enough to be understood
5. End with one follow-up question - this helps students think deeper and guides next steps

Format your responses clearly with:
- Brief introduction to the topic
- Step-by-step explanation (numbered or bulleted)
- Real-world example(s)
- One follow-up question at the end".

(* ================================================================== *)
(** ** Rendering helpers that do not touch the page *)

Definition LF : ascii := ascii_of_N 10.
Definition CR : ascii := ascii_of_N 13.
Definition NUL : ascii := ascii_of_N 0.
Definition NBSP : ascii := ascii_of_N 160.

(** The HTML fragment serialisation of one character of a text node:
    ampersand, no-break space, less-than and greater-than are replaced by
    character references; quotes are left alone outside attributes. *)
Definition escapeChar (c : ascii) : string :=
  if Ascii.eqb c "&" then "&amp;"
  else if Ascii.eqb c NBSP then "&nbsp;"
  else if Ascii.eqb c "<" then "&lt;"
  else if Ascii.eqb c ">" then "&gt;"
  else String c EmptyString.

Fixpoint serializeText (s : string) : string :=
  match s with
  | EmptyString => EmptyString
  | String c s' => escapeChar c ++ serializeText s'
  end.

Fixpoint join (sep : string) (l : list string) : string :=
  match l with
  | [] => ""
  | [s] => s
  | s :: l' => s ++ sep ++ join sep l'
  end.

Fixpoint allSome {A} (l : list (option A)) : option (list A) :=
  match l with
  | [] => Some []
  | Some a :: l' => option_map (cons a) (allSome l')
  | None :: _ => None
  end.

(** An object parsed from JSON has the own property [name]. *)
Definition hasOwn (name : string) (fields : list (string * value)) : bool :=
  existsb (fun field => fst field =? name) fields.

Section Engine.

Variable B : browser.

(** ToString of a value; [None] is the TypeError of OrdinaryToPrimitive.
    An object parsed from JSON holds no function: with an own property
    [toString] neither that property nor [valueOf] yields a primitive and
    the conversion throws; without it [Object.prototype.toString] answers.
    An array is joined with commas, [null] and [undefined] entries count as
    empty, and the conversion of an entry may throw in its turn. *)
Fixpoint toString (v : value) : option string :=
  match v with
  | VUndefined => Some "undefined"
  | VNull => Some "null"
  | VBool true => Some "true"
  | VBool false => Some "false"
  | VNumber q => Some (numberToString B q)
  | VString s => Some s
  | VArray items =>
      option_map (join ",")
        (allSome (map (fun x =>
                         match x with
                         | VUndefined | VNull => Some ""
                         | _ => toString x
                         end) items))
  | VObject fields =>
      if hasOwn "toString" fields then None else Some "[object Object]"
  end.

(** The TypeError of a conversion that finds no primitive (the wording of
    V8). *)
Definition notPrimitive : exn :=
  TypeError "Cannot convert object to primitive value".

(** The string a [textContent] setter stores: [null] and [undefined]
    clear the node, anything else is converted with ToString, which may
    throw. *)
Definition textContentOf (v : value) : result string :=
  match v with
  | VUndefined | VNull => Normal ""
  | _ =>
      match toString v with
      | Some s => Normal s
      | None => Throw notPrimitive
      end
  end.

(** [escapeHtml]: the text is stored in a detached element through
    [textContent] (line 277) and read back through [innerHTML]. *)
Definition escapeHtml (text : value) : result string :=
  match textContentOf text with
  | Normal s => Normal (serializeText s)
  | Throw e => Throw e
  end.

End Engine.

(* ================================================================== *)
(** ** The script *)

(** How one pass of the loop body ends unless it throws. *)
Inductive completion : Type :=
| Return (aiText : value)        (* return aiText *)
| Continue (lastError : string). (* next model, with lastError assigned *)

(** How the for loop ends unless it throws. *)
Inductive loopExit : Type :=
| Returned (aiText : value)
| Exhausted (lastError : option string). (* [None] is [null] *)

(** [lastError || fallback]: [null] and the empty string are falsy. *)
Definition orElse (lastError : option string) (fallback : string) : string :=
  match lastError with
  | Some s => if s =? "" then fallback else s
  | None => fallback
  end.

(** [err.message || String(err)] *)
Definition reasonOf (err : exn) : string :=
  if err_message err =? "" then exnToString err else err_message err.

(** The test of the catch clause of the loop. *)
Definition stopsTheLoop (lastError : string) : bool :=
  Str.includes (Str.toLowerCase lastError) "invalid"
  || Str.includes (Str.toLowerCase lastError) "rate limit".

Section Page.

Variable B : browser.
Variable GEMINI_API_KEY : string.

(** *** Elementary effects *)

Definition fetch (req : request) : M response :=
  fun w =>
    let w' := emit (Fetch req) w in
    match respond B (List.length (networkCalls (trace w))) req with
    | Rejected e => (Throw e, w')
    | Responded r => (Normal r, w')
    end.

(** [await response.json()] *)
Definition response_json (r : response) : M value :=
  match json r with
  | JsonRejected e => throw e
  | JsonData data => ret data
  end.

Definition console_warn (label reason : string) : M unit :=
  fun w => (Normal tt, emit (ConsoleWarn label reason) w).

Definition console_error (label : string) (e : exn) : M unit :=
  fun w => (Normal tt, emit (ConsoleError label e) w).

Definition userInput_get_value : M string :=
  fun w => (Normal (userInput_value w), w).

Definition userInput_set_value (s : string) : M unit :=
  fun w =>
    (Normal tt,
     {| userInput_value := s;
        sendBtn_disabled := sendBtn_disabled w;
        loadingIndicator_active := loadingIndicator_active w;
        errorMessage_textContent := errorMessage_textContent w;
        errorMessage_active := errorMessage_active w;
        chatContainer := chatContainer w;
        trace := trace w ++ [SetInputValue s] |}).

Definition userInput_focus : M unit :=
  fun w => (Normal tt, emit FocusInput w).

Definition sendBtn_set_disabled (b : bool) : M unit :=
  fun w =>
    (Normal tt,
     {| userInput_value := userInput_value w;
        sendBtn_disabled := b;
        loadingIndicator_active := loadingIndicator_active w;
        errorMessage_textContent := errorMessage_textContent w;
        errorMessage_active := errorMessage_active w;
        chatContainer := chatContainer w;
        trace := trace w ++ [SetSendDisabled b] |}).

Definition loadingIndicator_set (b : bool) : M unit :=
  fun w =>
    (Normal tt,
     {| userInput_value := userInput_value w;
        sendBtn_disabled := sendBtn_disabled w;
        loadingIndicator_active := b;
        errorMessage_textContent := errorMessage_textContent w;
        errorMessage_active := errorMessage_active w;
        chatContainer := chatContainer w;
        trace := trace w ++ [SetLoading b] |}).

Definition errorMessage_set (textContent : string) (active : bool) (e : event)
  : M unit :=
  fun w =>
    (Normal tt,
     {| userInput_value := userInput_value w;
        sendBtn_disabled := sendBtn_disabled w;
        loadingIndicator_active := loadingIndicator_active w;
        errorMessage_textContent := textContent;
        errorMessage_active := active;
        chatContainer := chatContainer w;
        trace := trace w ++ [e] |}).

(** [chatContainer.appendChild] of a div with the class and markup given. *)
Definition chatContainer_append (className innerHTML : string) : M unit :=
  fun w =>
    (Normal tt,
     {| userInput_value := userInput_value w;
        sendBtn_disabled := sendBtn_disabled w;
        loadingIndicator_active := loadingIndicator_active w;
        errorMessage_textContent := errorMessage_textContent w;
        errorMessage_active := errorMessage_active w;
        chatContainer := chatContainer w ++ [(className, innerHTML)];
        trace := trace w ++ [AppendMessage className innerHTML] |}).

(** *** UI display functions *)

Definition displayUserMessage (message : string) : M unit :=
  escaped <- lift (escapeHtml B (VString message)) ;;
  chatContainer_append "message user-message" ("<p>" ++ escaped ++ "</p>").

Definition displayAIMessage (message : value) : M unit :=
  formattedMessage <- lift (escapeHtml B message) ;;
  let formattedMessage := Str.replaceAll LF "<br>" formattedMessage in
  chatContainer_append "message ai-message"
    ("<p>" ++ formattedMessage ++ "</p>").

Definition showLoading : M unit := loadingIndicator_set true.
Definition hideLoading : M unit := loadingIndicator_set false.

Definition showError (message : string) : M unit :=
  errorMessage_set message true (ShowError message).

Definition clearError : M unit :=
  errorMessage_set "" false ClearError.

Definition scrollToBottom : M unit :=
  fun w => (Normal tt, emit ScrollToBottom w).

(** *** The completion requester *)

Definition makeRequestBody (userMessage : string) : requestBody :=
  {| body_contents :=
       [ {| content_role := "user";
            content_parts :=
              [ {| part_text :=
                     SYSTEM_PROMPT ++ String LF (String LF "User question: ")
                     ++ userMessage |} ] |} ];
     body_generationConfig :=
       {| temperature := 7 # 10; topK := 40; topP := 95 # 100;
          maxOutputTokens := 1024 |} |}.

Definition modelUrl (model : string) : string :=
  "https://generativelanguage.googleapis.com/v1/models/" ++ model
  ++ ":generateContent?key=" ++ GEMINI_API_KEY.

Definition modelRequest (body : requestBody) (model : string) : request :=
  {| req_url := modelUrl model;
     req_method := "POST";
     req_headers := [("Content-Type", "application/json")];
     req_body := body |}.

(** The try block of the loop body, lines 150-183. *)
Definition attempt (body : requestBody) (model : string) : M completion :=
  response <- fetch (modelRequest body model) ;;
  if negb (ok response) then
    if (status response =? 401)%Z then
      throw (Error "Invalid or missing API key. Check your Gemini API key.")
    else if (status response =? 404)%Z then
      ret (Continue ("Model " ++ model ++ " not found (404)."))
    else if (status response =? 429)%Z then
      throw (Error "Rate limit exceeded. Please wait a moment and try again.")
    else if (status response =? 500)%Z then
      throw (Error "Gemini API server error. Please try again later.")
    else
      ret (Continue ("API Error for model " ++ model ++ ": "
                     ++ Str.ofZ (status response) ++ " "
                     ++ statusText response))
  else
    data <- response_json response ;;
    candidates <- read data (Dot "candidates") ;;
    if negb (truthy candidates) then
      ret (Continue ("Unexpected API response format from model " ++ model))
    else
    candidate0 <- read candidates (At 0) ;;
    if negb (truthy candidate0) then
      ret (Continue ("Unexpected API response format from model " ++ model))
    else
    content <- read candidate0 (Dot "content") ;;
    if negb (truthy content) then
      ret (Continue ("Unexpected API response format from model " ++ model))
    else
    parts <- read content (Dot "parts") ;;
    part0 <- read parts (At 0) ;;
    aiText <- read part0 (Dot "text") ;;
    ret (Return aiText).

(** The catch clause of the loop body, lines 185-193. *)
Definition attemptFailed (model : string) (err : exn) : M completion :=
  let lastError := reasonOf err in
  if stopsTheLoop lastError then throw (Error lastError)
  else
    console_warn ("Model " ++ model ++ " failed:") lastError ;;;
    ret (Continue lastError).

(** The for loop over the models still to try, entered with the current
    [lastError]. *)
Fixpoint tryModels (body : requestBody) (models : list string)
    (lastError : option string) : M loopExit :=
  match models with
  | [] => ret (Exhausted lastError)
  | model :: rest =>
      c <- try_catch (attempt body model) (attemptFailed model) ;;
      match c with
      | Return aiText => ret (Returned aiText)
      | Continue lastError' => tryModels body rest (Some lastError')
      end
  end.

(** [getGeminiResponse] with the list of models as a parameter. *)
Definition getGeminiResponseFrom (models : list string) (userMessage : string)
  : M value :=
  let requestBody := makeRequestBody userMessage in
  try_catch
    (exit <- tryModels requestBody models None ;;
     match exit with
     | Returned aiText => ret aiText
     | Exhausted lastError =>
         throw (Error (orElse lastError "All models failed"))
     end)
    (fun error => throw error).

Definition getGeminiResponse (userMessage : string) : M value :=
  getGeminiResponseFrom MODELS_TO_TRY userMessage.

(** *** The conversation view *)

(** [sendMessage] with the list of models as a parameter. *)
Definition sendMessageFrom (models : list string) : M unit :=
  value_ <- userInput_get_value ;;
  let message := Str.trim value_ in
  if message =? "" then showError "Please enter a message"
  else if GEMINI_API_KEY =? "YOUR_API_KEY_HERE" then
    showError "Please add your Gemini API key to the script"
  else
    clearError ;;;
    displayUserMessage message ;;;
    userInput_set_value "" ;;;
    sendBtn_set_disabled true ;;;
    showLoading ;;;
    try_finally
      (try_catch
         (aiResponse <- getGeminiResponseFrom models message ;;
          hideLoading ;;;
          displayAIMessage aiResponse ;;;
          scrollToBottom)
         (fun error =>
            hideLoading ;;;
            showError ("Error: " ++ err_message error) ;;;
            console_error "Full error:" error))
      (sendBtn_set_disabled false ;;;
       userInput_focus).

Definition sendMessage : M unit := sendMessageFrom MODELS_TO_TRY.

End Page.

(* ================================================================== *)
(** ** Vocabulary of the properties *)

(** The answer of the network to a call issued from the world [w] for
    [model]: the calls already in the trace give its number. *)
Definition answerAt (B : browser) (GEMINI_API_KEY : string)
    (body : requestBody) (w : world) (model : string) : fetchResult :=
  respond B (List.length (networkCalls (trace w)))
    (modelRequest GEMINI_API_KEY body model).

(** The text of a body of the expected shape
    [{candidates:[{content:{parts:[{text: string}]}}]}]; further fields
    and further array entries do not matter. *)
Definition expectedText (data : value) : option string :=
  match data with
  | VObject fields =>
      match lookup "candidates" fields with
      | VArray (VObject candidate0 :: _) =>
          match lookup "content" candidate0 with
          | VObject content =>
              match lookup "parts" content with
              | VArray (VObject part0 :: _) =>
                  match lookup "text" part0 with
                  | VString t => Some t
                  | _ => None
                  end
              | _ => None
              end
          | _ => None
          end
      | _ => None
      end
  | _ => None
  end.

(** [content] is what [data.candidates[0].content] evaluates to, and the
    test of line 177 lets the body through. *)
Definition contentPresent (data content : value) : Prop :=
  data <> VNull /\ data <> VUndefined
  /\ truthy (getProperty data (Dot "candidates")) = true
  /\ truthy (getProperty (getProperty data (Dot "candidates")) (At 0)) = true
  /\ content =
     getProperty (getProperty (getProperty data (Dot "candidates")) (At 0))
       (Dot "content")
  /\ truthy content = true.

(** The reason left by a run in which every model was answered with 404. *)
Definition lastNotFound (models : list string) (lastError : option string)
  : option string :=
  fold_left (fun _ model => Some ("Model " ++ model ++ " not found (404)."))
    models lastError.

(** A computation that leaves the world as it found it. *)
Definition pure {A} (m : M A) : Prop := forall w, snd (m w) = w.

(** The world in which [sendMessage] calls the requester: the steps of
    lines 79-89 are done. *)
Definition requestWorld (B : browser) (message : string) (w : world) : world :=
  snd ((clearError ;;;
        displayUserMessage B message ;;;
        userInput_set_value "" ;;;
        sendBtn_set_disabled true ;;;
        showLoading) w).

(** The two effects of the finally block. *)
Definition releases (e : event) : bool :=
  match e with
  | SetSendDisabled false | FocusInput => true
  | _ => false
  end.

(** Empty or made of white space only. *)
Fixpoint allWhiteSpace (s : string) : bool :=
  match s with
  | EmptyString => true
  | String c s' => Str.isWhiteSpace c && allWhiteSpace s'
  end.

(** Events a run of [getGeminiResponse] may add to the trace. *)
Definition requesterEvent (e : event) : bool :=
  match e with
  | Fetch _ | ConsoleWarn _ _ => true
  | _ => false
  end.

(** [w'] is [w] with [events] added to the trace and nothing else
    changed. *)
Definition extends (w : world) (events : list event) (w' : world) : Prop :=
  w' = {| userInput_value := userInput_value w;
          sendBtn_disabled := sendBtn_disabled w;
          loadingIndicator_active := loadingIndicator_active w;
          errorMessage_textContent := errorMessage_textContent w;
          errorMessage_active := errorMessage_active w;
          chatContainer := chatContainer w;
          trace := trace w ++ events |}.

(** *** Reading markup back

    What the HTML parser makes of the markup assigned to the [innerHTML]
    of a paragraph, on the fragment of HTML the display functions can
    produce: character data, the four character references of
    [escapeChar] and the [br] tag.  As in the parser, the input is first
    rid of carriage returns (a CR LF pair and a lone CR both become one
    LF), and a U+0000 met as character data in the body is dropped.  The
    reader is the tokenizer's state machine cut down to that fragment; on
    anything else (another tag, another reference, an unfinished tag or
    reference) it gives up. *)

Inductive inline : Type :=
| Text (s : string)
| Br.

Inductive readerMode : Type :=
| InData
| InReference (name : string)
| InTag (name : string).

(** Nodes are kept newest first; a character joins the text node in
    front of it. *)
Definition addChar (c : ascii) (nodes : list inline) : list inline :=
  match nodes with
  | Text s :: older => Text (s ++ String c EmptyString) :: older
  | _ => Text (String c EmptyString) :: nodes
  end.

(** The normalisation of newlines of the input stream: [afterCR] tells
    that the character before was a CR, whose LF is then dropped. *)
Fixpoint normalizeFrom (afterCR : bool) (s : string) : string :=
  match s with
  | EmptyString => EmptyString
  | String c s' =>
      if Ascii.eqb c CR then String LF (normalizeFrom true s')
      else if Ascii.eqb c LF then
        if afterCR then normalizeFrom false s'
        else String LF (normalizeFrom false s')
      else String c (normalizeFrom false s')
  end.

Definition normalizeNewlines (s : string) : string := normalizeFrom false s.

Fixpoint dropNul (s : string) : string :=
  match s with
  | EmptyString => EmptyString
  | String c s' => if Ascii.eqb c NUL then dropNul s' else String c (dropNul s')
  end.

(** The text the parser makes of character data [s]: newlines normalised,
    then U+0000 dropped; every other character is kept as it is. *)
Definition parsedText (s : string) : string := dropNul (normalizeNewlines s).

(** Every CR turned into LF. *)
Fixpoint crToLf (s : string) : string :=
  match s with
  | EmptyString => EmptyString
  | String c s' => String (if Ascii.eqb c CR then LF else c) (crToLf s')
  end.

(** The nodes after the characters of [s], newlines already normalised,
    have been read as character data. *)
Fixpoint addText (s : string) (nodes : list inline) : list inline :=
  match s with
  | EmptyString => nodes
  | String c s' =>
      addText s' (if Ascii.eqb c NUL then nodes else addChar c nodes)
  end.

(** The nodes of a message of the assistant: a line feed gives a [br]
    element, a CR is read as a line feed character, a U+0000 is dropped. *)
Fixpoint addLines (s : string) (nodes : list inline) : list inline :=
  match s with
  | EmptyString => nodes
  | String c s' =>
      addLines s'
        (if Ascii.eqb c LF then Br :: nodes
         else if Ascii.eqb c CR then addChar LF nodes
         else if Ascii.eqb c NUL then nodes
         else addChar c nodes)
  end.

Definition referenceChar (name : string) : option ascii :=
  if name =? "amp" then Some "&"%char
  else if name =? "nbsp" then Some NBSP
  else if name =? "lt" then Some "<"%char
  else if name =? "gt" then Some ">"%char
  else None.

Definition readerStep (st : option (readerMode * list inline)) (c : ascii)
  : option (readerMode * list inline) :=
  match st with
  | None => None
  | Some (InData, nodes) =>
      if Ascii.eqb c "<" then Some (InTag "", nodes)
      else if Ascii.eqb c "&" then Some (InReference "", nodes)
      else if Ascii.eqb c NUL then Some (InData, nodes)
      else Some (InData, addChar c nodes)
  | Some (InReference name, nodes) =>
      if Ascii.eqb c ";" then
        match referenceChar name with
        | Some d => Some (InData, addChar d nodes)
        | None => None
        end
      else Some (InReference (name ++ String c EmptyString), nodes)
  | Some (InTag name, nodes) =>
      if Ascii.eqb c ">" then
        if name =? "br" then Some (InData, Br :: nodes) else None
      else Some (InTag (name ++ String c EmptyString), nodes)
  end.

Fixpoint readerRun (st : option (readerMode * list inline)) (html : string)
  : option (readerMode * list inline) :=
  match html with
  | EmptyString => st
  | String c html' => readerRun (readerStep st c) html'
  end.

Definition readInline (html : string) : option (list inline) :=
  match readerRun (Some (InData, [])) (normalizeNewlines html) with
  | Some (InData, nodes) => Some (rev nodes)
  | _ => None
  end.

(** The characters the nodes hold, in order, a [br] counted as a line
    feed. *)
Fixpoint visibleText (nodes : list inline) : string :=
  match nodes with
  | [] => ""
  | Text s :: rest => s ++ visibleText rest
  | Br :: rest => String LF (visibleText rest)
  end.

Definition isText (n : inline) : bool :=
  match n with Text _ => true | Br => false end.

Fixpoint hasChar (c : ascii) (s : string) : bool :=
  match s with
  | EmptyString => false
  | String d s' => Ascii.eqb d c || hasChar c s'
  end.

(** No text node holds a line feed. *)
Definition singleLine (n : inline) : bool :=
  match n with Text s => negb (hasChar LF s) | Br => true end.

Fixpoint countChar (c : ascii) (s : string) : nat :=
  match s with
  | EmptyString => 0
  | String d s' => (if Ascii.eqb d c then 1 else 0) + countChar c s'
  end.

(** The number of [br] elements among some nodes. *)
Fixpoint brCount (nodes : list inline) : nat :=
  match nodes with
  | [] => 0
  | Br :: rest => S (brCount rest)
  | Text _ :: rest => brCount rest
  end.

(** A string without CR and without U+0000. *)
Definition plain (s : string) : bool :=
  negb (hasChar CR s) && negb (hasChar NUL s).

(** The cases of a character that matter to escaping and to reading. *)
Inductive charCase (c : ascii) : Prop :=
| IsLF : c = LF -> charCase c
| IsCR : c = CR -> charCase c
| IsNUL : c = NUL -> charCase c
| IsAmp : c = "&"%char -> charCase c
| IsNBSP : c = NBSP -> charCase c
| IsLt : c = "<"%char -> charCase c
| IsGt : c = ">"%char -> charCase c
| IsOther :
    Ascii.eqb c LF = false -> Ascii.eqb c CR = false ->
    Ascii.eqb c NUL = false -> Ascii.eqb c "&" = false ->
    Ascii.eqb c NBSP = false -> Ascii.eqb c "<" = false ->
    Ascii.eqb c ">" = false -> charCase c.

(** What a paragraph of the chat log holds, read back from its markup
    [<p>...</p>]. *)
Definition paragraphOf (innerHTML : string) : option (list inline) :=
  match innerHTML with
  | String "<" (String "p" (String ">" rest)) =>
      let n := String.length rest in
      if String.eqb (substring (n - 4) 4 rest) "</p>"
      then readInline (substring 0 (n - 4) rest)
      else None
  | _ => None
  end.

(* ================================================================== *)
(** ** Sample pages, for the concrete runs below *)

(** A page on which the user has typed a question. *)
Definition page0 : world :=
  {| userInput_value := "  What is gravity? ";
     sendBtn_disabled := false;
     loadingIndicator_active := false;
     errorMessage_textContent := "";
     errorMessage_active := false;
     chatContainer := [];
     trace := [] |}.

(** The same page with white space only in the input. *)
Definition blankPage : world :=
  {| userInput_value := String LF "   ";
     sendBtn_disabled := false;
     loadingIndicator_active := false;
     errorMessage_textContent := "";
     errorMessage_active := false;
     chatContainer := [];
     trace := [] |}.

(** A body of the expected shape, with the fields a real answer carries
    next to it. *)
Definition answerBody (t : string) : value :=
  VObject
    [ ("candidates",
       VArray
         [ VObject
             [ ("content",
                VObject [ ("parts", VArray [ VObject [ ("text", VString t) ] ]);
                          ("role", VString "model") ]);
               ("finishReason", VString "STOP");
               ("index", VNumber (0 # 1)) ] ]);
      ("modelVersion", VString "gemini-2.5-flash") ].

(** A body whose content has no parts. *)
Definition emptyContentBody : value :=
  VObject
    [ ("candidates",
       VArray [ VObject [ ("content", VObject [ ("role", VString "model") ]);
                          ("finishReason", VString "MAX_TOKENS") ] ]) ].

Definition httpAnswer (code : Z) (reason : string) (data : value)
  : fetchResult :=
  Responded {| status := code; statusText := reason; json := JsonData data |}.

(** A browser whose network gives the listed answers in turn and then
    fails; its number printing is only right for integers, which is all
    the sample bodies hold. *)
Definition scripted (answers : list fetchResult) : browser :=
  {| respond := fun n _ => nth n answers (Rejected (TypeError "Failed to fetch"));
     numberToString := fun q => Str.ofZ (Qnum q) |}.

(** A browser whose network gives the same answer to every call. *)
Definition always (answer : fetchResult) : browser :=
  {| respond := fun _ _ => answer;
     numberToString := fun q => Str.ofZ (Qnum q) |}.

(* ================================================================== *)
(** ** Vocabulary of the further properties *)

(** The test of line 177 on a body that is neither [null] nor [undefined]:
    [!data.candidates || !data.candidates[0] || !data.candidates[0].content]. *)
Definition formatUnexpected (data : value) : bool :=
  negb (truthy (getProperty data (Dot "candidates")))
  || negb (truthy (getProperty (getProperty data (Dot "candidates")) (At 0)))
  || negb (truthy
             (getProperty
                (getProperty (getProperty data (Dot "candidates")) (At 0))
                (Dot "content"))).

(** What [sendMessage] does once the requester has settled, lines 95-113. *)
Definition settle (B : browser) (outcome : result value) : M unit :=
  try_finally
    (try_catch
       (aiResponse <- lift outcome ;;
        hideLoading ;;;
        displayAIMessage B aiResponse ;;;
        scrollToBottom)
       (fun error =>
          hideLoading ;;;
          showError ("Error: " ++ err_message error) ;;;
          console_error "Full error:" error))
    (sendBtn_set_disabled false ;;;
     userInput_focus).

(** The user's turn as [displayUserMessage] puts it in the log; for a
    string [escapeHtml] is [serializeText]. *)
Definition userTurn (message : string) : string * string :=
  ("message user-message", "<p>" ++ serializeText message ++ "</p>").

(** The assistant's turn as [displayAIMessage] puts it in the log, from
    what [escapeHtml] returned. *)
Definition assistantTurn (escaped : string) : string * string :=
  ("message ai-message",
   "<p>" ++ Str.replaceAll LF "<br>" escaped ++ "</p>").

(** The page with the button and the loading indicator set as given. *)
Definition withBusy (disabled loading : bool) (w : world) : world :=
  {| userInput_value := userInput_value w;
     sendBtn_disabled := disabled;
     loadingIndicator_active := loading;
     errorMessage_textContent := errorMessage_textContent w;
     errorMessage_active := errorMessage_active w;
     chatContainer := chatContainer w;
     trace := trace w |}.

Definition nullish (v : value) : bool :=
  match v with
  | VUndefined | VNull => true
  | _ => false
  end.

(** What [data.candidates[0].content.parts[0].text] evaluates to, when the
    test of line 177 lets the body through and no read on the way is a
    read of [undefined] or [null]. *)
Definition answerValue (data : value) : option value :=
  if nullish data then None else
  let candidates := getProperty data (Dot "candidates") in
  if negb (truthy candidates) then None else
  let candidate0 := getProperty candidates (At 0) in
  if negb (truthy candidate0) then None else
  let content := getProperty candidate0 (Dot "content") in
  if negb (truthy content) then None else
  let parts := getProperty content (Dot "parts") in
  if nullish parts then None else
  let part0 := getProperty parts (At 0) in
  if nullish part0 then None else
  Some (getProperty part0 (Dot "text")).

(** A body whose first part has no text, and bodies without an answer. *)
Definition noTextBody : value :=
  VObject
    [ ("candidates",
       VArray
         [ VObject
             [ ("content",
                VObject [ ("parts", VArray [ VObject [] ]);
                          ("role", VString "model") ]) ] ]) ].

(** An answer whose text is an object with a property [toString]. *)
Definition unprintableBody : value :=
  VObject
    [ ("candidates",
       VArray
         [ VObject
             [ ("content",
                VObject
                  [ ("parts",
                     VArray
                       [ VObject
                           [ ("text",
                              VObject [ ("toString", VNumber (1 # 1)) ]) ] ]);
                    ("role", VString "model") ]) ] ]) ].

Definition blockedBody : value :=
  VObject
    [ ("promptFeedback", VObject [ ("blockReason", VString "SAFETY") ]) ].

(* ================================================================== *)
(** ** Facts about the string model *)

Lemma prefix_iff (needle s : string) :
  prefix needle s = true <-> exists rest, s = needle ++ rest.
Proof.
  revert s. induction needle as [|a needle IH]; intros s.
  - split; [intros _; exists s; reflexivity | intros _; destruct s; reflexivity].
  - destruct s as [|b s]; simpl.
    + split; [discriminate | intros [rest H]; discriminate H].
    + destruct (ascii_dec a b) as [->|Hab].
      * rewrite IH. split; intros [rest H]; exists rest; congruence.
      * split; [discriminate | intros [rest H]; congruence].
Qed.

(** [includes] is containment as a substring. *)
Lemma includes_iff (s needle : string) :
  Str.includes s needle = true <->
  exists before after, s = before ++ needle ++ after.
Proof.
  induction s as [|c s IH].
  - change (Str.includes "" needle) with (prefix needle "" || false).
    rewrite orb_false_r, prefix_iff. split.
    + intros [rest H]. exists "", rest. exact H.
    + intros [[|d before] [after H]]; [exists after; exact H | discriminate H].
  - change (Str.includes (String c s) needle)
      with (prefix needle (String c s) || Str.includes s needle).
    rewrite orb_true_iff, prefix_iff, IH. split.
    + intros [[rest H] | [before [after H]]].
      * exists "", rest. exact H.
      * exists (String c before), after. simpl. rewrite H. reflexivity.
    + intros [[|d before] [after H]].
      * left. exists after. exact H.
      * right. exists before, after. simpl in H. congruence.
Qed.

(** Lower-casing twice is lower-casing once. *)
Lemma toLowerCase_idempotent (s : string) :
  Str.toLowerCase (Str.toLowerCase s) = Str.toLowerCase s.
Proof.
  induction s as [|c s IH]; simpl; [reflexivity|].
  rewrite IH. f_equal.
  destruct c as [[] [] [] [] [] [] [] []]; reflexivity.
Qed.

(* ================================================================== *)
(** ** General facts *)

Lemma networkCalls_app (t1 t2 : list event) :
  networkCalls (t1 ++ t2) = (networkCalls t1 ++ networkCalls t2)%list.
Proof.
  induction t1 as [|e t1 IH]; simpl; [reflexivity|].
  destruct e; simpl; rewrite IH; reflexivity.
Qed.

Lemma extends_nil w : extends w [] w.
Proof. unfold extends. rewrite app_nil_r. destruct w; reflexivity. Qed.

Lemma extends_emit w e : extends w [e] (emit e w).
Proof. reflexivity. Qed.

Lemma extends_trans w1 w2 w3 ev1 ev2 :
  extends w1 ev1 w2 -> extends w2 ev2 w3 -> extends w1 (ev1 ++ ev2) w3.
Proof.
  unfold extends. intros -> ->. simpl. rewrite app_assoc. reflexivity.
Qed.

Lemma extends_trace w events w' :
  extends w events w' -> trace w' = (trace w ++ events)%list.
Proof. intros ->. reflexivity. Qed.

Section Requester.

Variable B : browser.
Variable GEMINI_API_KEY : string.
Variable body : requestBody.

Local Abbreviation loop := (tryModels B GEMINI_API_KEY body).
Local Abbreviation try := (attempt B GEMINI_API_KEY body).
Local Abbreviation guarded model :=
  (try_catch (attempt B GEMINI_API_KEY body model) (attemptFailed model)).
Local Abbreviation requestFor := (modelRequest GEMINI_API_KEY body).
Local Abbreviation answer := (answerAt B GEMINI_API_KEY body).

(** One turn of the loop, unfolded. *)
Lemma tryModels_cons model rest lastError w :
  loop (model :: rest) lastError w =
  match guarded model w with
  | (Normal (Return aiText), w') => (Normal (Returned aiText), w')
  | (Normal (Continue lastError'), w') => loop rest (Some lastError') w'
  | (Throw e, w') => (Throw e, w')
  end.
Proof.
  simpl. unfold bind.
  destruct (guarded model w) as [[[v|s]|e] w']; reflexivity.
Qed.

(** The loop over [pre ++ suf] is the loop over [pre] and, when that one
    runs out of models, the loop over [suf] from where it stopped. *)
Lemma tryModels_app pre suf lastError w :
  loop (pre ++ suf)%list lastError w =
  match loop pre lastError w with
  | (Normal (Exhausted lastError'), w') => loop suf lastError' w'
  | other => other
  end.
Proof.
  revert lastError w.
  induction pre as [|model pre IH]; intros lastError w.
  - reflexivity.
  - rewrite <- app_comm_cons, !tryModels_cons.
    destruct (guarded model w) as [[[v|s]|e] w']; try reflexivity.
    apply IH.
Qed.

(** Once the models of [pre] are used up, the loop is at [model]. *)
Lemma tryModels_at pre model rest lastError0 w0 lastError w :
  loop pre lastError0 w0 = (Normal (Exhausted lastError), w) ->
  loop (pre ++ model :: rest)%list lastError0 w0 =
  match guarded model w with
  | (Normal (Return aiText), w') => (Normal (Returned aiText), w')
  | (Normal (Continue lastError'), w') => loop rest (Some lastError') w'
  | (Throw e, w') => (Throw e, w')
  end.
Proof.
  intros Hpre. rewrite tryModels_app, Hpre. apply tryModels_cons.
Qed.

(** What the try block does with a response that is not ok. *)
Lemma attempt_not_ok model w r :
  answer w model = Responded r ->
  ok r = false ->
  try model w =
  ((if (status r =? 401)%Z then
      Throw (Error "Invalid or missing API key. Check your Gemini API key.")
    else if (status r =? 404)%Z then
      Normal (Continue ("Model " ++ model ++ " not found (404)."))
    else if (status r =? 429)%Z then
      Throw (Error "Rate limit exceeded. Please wait a moment and try again.")
    else if (status r =? 500)%Z then
      Throw (Error "Gemini API server error. Please try again later.")
    else
      Normal (Continue ("API Error for model " ++ model ++ ": "
                        ++ Str.ofZ (status r) ++ " " ++ statusText r))),
   emit (Fetch (requestFor model)) w).
Proof.
  unfold answerAt. intros Hr Hok.
  unfold attempt, bind, fetch. rewrite Hr, Hok. simpl.
  destruct (status r =? 401)%Z; [reflexivity|].
  destruct (status r =? 404)%Z; [reflexivity|].
  destruct (status r =? 429)%Z; [reflexivity|].
  destruct (status r =? 500)%Z; reflexivity.
Qed.

(** What the try block does with an ok response whose body parses. *)
Lemma attempt_ok model w r data :
  answer w model = Responded r ->
  ok r = true ->
  json r = JsonData data ->
  try model w =
  (candidates <- read data (Dot "candidates") ;;
   if negb (truthy candidates) then
     ret (Continue ("Unexpected API response format from model " ++ model))
   else
   candidate0 <- read candidates (At 0) ;;
   if negb (truthy candidate0) then
     ret (Continue ("Unexpected API response format from model " ++ model))
   else
   content <- read candidate0 (Dot "content") ;;
   if negb (truthy content) then
     ret (Continue ("Unexpected API response format from model " ++ model))
   else
   parts <- read content (Dot "parts") ;;
   part0 <- read parts (At 0) ;;
   aiText <- read part0 (Dot "text") ;;
   ret (Return aiText)) (emit (Fetch (requestFor model)) w).
Proof.
  unfold answerAt. intros Hr Hok Hjson.
  unfold attempt at 1. unfold bind at 1. unfold fetch. rewrite Hr, Hok. simpl.
  unfold bind at 1. unfold response_json. rewrite Hjson. reflexivity.
Qed.

(** A rejected fetch is an exception of the attempt. *)
Lemma attempt_rejected model w e :
  answer w model = Rejected e ->
  try model w = (Throw e, emit (Fetch (requestFor model)) w).
Proof.
  unfold answerAt. intros Hr. unfold attempt, bind, fetch. rewrite Hr.
  reflexivity.
Qed.

(** A value that is truthy is neither [undefined] nor [null]. *)
Lemma read_truthy v k :
  truthy v = true -> read v k = ret (getProperty v k).
Proof. destruct v; simpl; intros H; try discriminate; reflexivity. Qed.

End Requester.

Section Operation.

Variable B : browser.
Variable GEMINI_API_KEY : string.
Variable userMessage : string.

Local Abbreviation body := (makeRequestBody userMessage).
Local Abbreviation loop := (tryModels B GEMINI_API_KEY body).
Local Abbreviation try := (attempt B GEMINI_API_KEY body).
Local Abbreviation requestFor := (modelRequest GEMINI_API_KEY body).
Local Abbreviation answer := (answerAt B GEMINI_API_KEY body).
Local Abbreviation getResponse models :=
  (getGeminiResponseFrom B GEMINI_API_KEY models userMessage).

(** [getGeminiResponse] is the loop followed by the final throw; the outer
    catch clause rethrows what it catches. *)
Lemma getGeminiResponseFrom_loop models w :
  getResponse models w =
  match loop models None w with
  | (Normal (Returned aiText), w') => (Normal aiText, w')
  | (Normal (Exhausted lastError), w') =>
      (Throw (Error (orElse lastError "All models failed")), w')
  | (Throw e, w') => (Throw e, w')
  end.
Proof.
  unfold getGeminiResponseFrom, try_catch, bind.
  destruct (loop models None w) as [[[v|le]|e] w']; reflexivity.
Qed.

(** *** HTTP statuses *)

(** C2. Wherever in the list the candidate stands, a response with status
    401 makes the whole operation fail with the invalid-key reason, and one
    with status 429 with the rate-limit reason; the call of that candidate
    is the last event of the run, so no later candidate is tried. *)
Theorem status_401_429_abort pre model rest lastError w0 w r :
  loop pre None w0 = (Normal (Exhausted lastError), w) ->
  answer w model = Responded r ->
  (status r = 401%Z ->
   getResponse (pre ++ model :: rest)%list w0 =
   (Throw (Error "Invalid or missing API key. Check your Gemini API key."),
    emit (Fetch (requestFor model)) w))
  /\
  (status r = 429%Z ->
   getResponse (pre ++ model :: rest)%list w0 =
   (Throw (Error "Rate limit exceeded. Please wait a moment and try again."),
    emit (Fetch (requestFor model)) w)).
Proof.
  intros Hpre Hr.
  split; intros Hs;
    rewrite getGeminiResponseFrom_loop, (tryModels_at _ _ _ _ _ _ _ _ _ _ Hpre);
    unfold try_catch;
    rewrite (attempt_not_ok _ _ _ _ _ _ Hr) by (unfold ok; rewrite Hs; reflexivity);
    rewrite Hs; reflexivity.
Qed.

(** C1, amended. Wherever in the list the candidate stands, a response with
    a status from 501 to 599 does not end the operation: its reason is
    recorded as the last error and the loop goes on with the next
    candidate, after that one call. *)
Theorem status_5xx_other_than_500_continues
    pre model rest lastError0 lastError w0 w r :
  loop pre lastError0 w0 = (Normal (Exhausted lastError), w) ->
  answer w model = Responded r ->
  (501 <= status r <= 599)%Z ->
  loop (pre ++ model :: rest)%list lastError0 w0 =
  loop rest
    (Some ("API Error for model " ++ model ++ ": " ++ Str.ofZ (status r)
           ++ " " ++ statusText r))
    (emit (Fetch (requestFor model)) w).
Proof.
  intros Hpre Hr Hs.
  rewrite (tryModels_at _ _ _ _ _ _ _ _ _ _ Hpre). unfold try_catch.
  rewrite (attempt_not_ok _ _ _ _ _ _ Hr)
    by (unfold ok; apply andb_false_iff; right; apply Z.leb_gt; lia).
  destruct (Z.eqb_spec (status r) 401); [lia|].
  destruct (Z.eqb_spec (status r) 404); [lia|].
  destruct (Z.eqb_spec (status r) 429); [lia|].
  destruct (Z.eqb_spec (status r) 500); [lia|].
  reflexivity.
Qed.

(** Status 500: the Error thrown at line 168 is caught by the catch clause
    of the same pass; its message has neither trigger word, so the loop
    goes on with the next candidate. *)
Lemma status_500_is_caught pre model rest lastError0 lastError w0 w r :
  loop pre lastError0 w0 = (Normal (Exhausted lastError), w) ->
  answer w model = Responded r ->
  status r = 500%Z ->
  loop (pre ++ model :: rest)%list lastError0 w0 =
  loop rest (Some "Gemini API server error. Please try again later.")
    (emit (ConsoleWarn ("Model " ++ model ++ " failed:")
             "Gemini API server error. Please try again later.")
       (emit (Fetch (requestFor model)) w)).
Proof.
  intros Hpre Hr Hs.
  rewrite (tryModels_at _ _ _ _ _ _ _ _ _ _ Hpre). unfold try_catch.
  rewrite (attempt_not_ok _ _ _ _ _ _ Hr) by (unfold ok; rewrite Hs; reflexivity).
  rewrite Hs. reflexivity.
Qed.

(** *** Success after a skip *)

Lemma attempt_404 model w r :
  answer w model = Responded r ->
  status r = 404%Z ->
  try model w =
  (Normal (Continue ("Model " ++ model ++ " not found (404).")),
   emit (Fetch (requestFor model)) w).
Proof.
  intros Hr Hs.
  rewrite (attempt_not_ok _ _ _ _ _ _ Hr)
    by (unfold ok; rewrite Hs; reflexivity).
  rewrite Hs. reflexivity.
Qed.

Lemma attempt_answer model w r data t :
  answer w model = Responded r ->
  ok r = true ->
  json r = JsonData data ->
  expectedText data = Some t ->
  try model w =
  (Normal (Return (VString t)), emit (Fetch (requestFor model)) w).
Proof.
  intros Hr Hok Hjson Ht.
  rewrite (attempt_ok _ _ _ _ _ _ _ Hr Hok Hjson).
  unfold expectedText in Ht.
  destruct data as [| | | | |?|fields]; try discriminate.
  destruct (lookup "candidates" fields) as [| | | | |items|?] eqn:E1;
    try discriminate.
  destruct items as [|[| | | | |?|candidate0] ?]; try discriminate.
  destruct (lookup "content" candidate0) as [| | | | |?|content] eqn:E2;
    try discriminate.
  destruct (lookup "parts" content) as [| | | | |parts|?] eqn:E3;
    try discriminate.
  destruct parts as [|[| | | | |?|part0] ?]; try discriminate.
  destruct (lookup "text" part0) as [| | | |s| |] eqn:E4; try discriminate.
  injection Ht as ->.
  unfold bind, read, ret, getProperty, keyName.
  rewrite E1. simpl. rewrite E2. simpl. rewrite E3. simpl. rewrite E4.
  reflexivity.
Qed.

(** C3. When the first candidate is answered with 404 and the second with
    a success whose body has the expected shape, the operation returns the
    text of the second and the run consists of exactly the two calls. *)
Theorem second_candidate_answers model1 model2 rest w0 r1 r2 data t :
  answer w0 model1 = Responded r1 ->
  status r1 = 404%Z ->
  answer (emit (Fetch (requestFor model1)) w0) model2 = Responded r2 ->
  ok r2 = true ->
  json r2 = JsonData data ->
  expectedText data = Some t ->
  exists w',
    getResponse (model1 :: model2 :: rest) w0 = (Normal (VString t), w')
    /\ extends w0 [Fetch (requestFor model1); Fetch (requestFor model2)] w'
    /\ networkCalls (trace w') =
       (networkCalls (trace w0) ++ [requestFor model1; requestFor model2])%list.
Proof.
  intros Hr1 Hs1 Hr2 Hok2 Hjson Ht.
  exists (emit (Fetch (requestFor model2)) (emit (Fetch (requestFor model1)) w0)).
  split; [|split].
  - rewrite getGeminiResponseFrom_loop, tryModels_cons. unfold try_catch.
    rewrite (attempt_404 _ _ _ Hr1 Hs1), tryModels_cons. unfold try_catch.
    rewrite (attempt_answer _ _ _ _ _ Hr2 Hok2 Hjson Ht). reflexivity.
  - unfold extends, emit. simpl. rewrite <- app_assoc. reflexivity.
  - unfold emit. simpl. rewrite <- app_assoc, networkCalls_app. reflexivity.
Qed.

(** *** Every candidate missing *)

Lemma tryModels_all_404 models lastError w :
  (forall n req, exists r, respond B n req = Responded r /\ status r = 404%Z) ->
  exists w',
    loop models lastError w =
    (Normal (Exhausted (lastNotFound models lastError)), w')
    /\ extends w (map (fun model => Fetch (requestFor model)) models) w'.
Proof.
  intros Hall. revert lastError w.
  induction models as [|model models IH]; intros lastError w.
  - exists w. split; [reflexivity | apply extends_nil].
  - destruct (Hall (List.length (networkCalls (trace w))) (requestFor model))
      as [r [Hr Hs]].
    destruct (IH (Some ("Model " ++ model ++ " not found (404)."))
                 (emit (Fetch (requestFor model)) w)) as [w' [Hrun Hext]].
    exists w'. split.
    + rewrite tryModels_cons. unfold try_catch.
      rewrite (attempt_404 _ _ _ Hr Hs). exact Hrun.
    + change (map (fun m => Fetch (requestFor m)) (model :: models))
        with ([Fetch (requestFor model)]
              ++ map (fun m => Fetch (requestFor m)) models)%list.
      eapply extends_trans; [apply extends_emit | exact Hext].
Qed.

Lemma lastNotFound_reason models :
  orElse (lastNotFound models None) "All models failed" =
  match rev models with
  | [] => "All models failed"
  | model :: _ => "Model " ++ model ++ " not found (404)."
  end.
Proof.
  destruct models as [|m models] using rev_ind; [reflexivity|].
  unfold lastNotFound. rewrite fold_left_app, rev_app_distr. reflexivity.
Qed.

Lemma networkCalls_fetches (f : string -> request) models :
  networkCalls (map (fun model => Fetch (f model)) models) = map f models.
Proof. induction models; simpl; congruence. Qed.

(** C4. When every call is answered with 404, the operation issues one
    call per candidate, in order and nothing else, and then fails with the
    reason recorded for the last candidate.  And whenever the loop ends
    with no reason recorded, the operation fails with the generic
    message. *)
Theorem all_candidates_not_found models w0 :
  ((forall n req, exists r, respond B n req = Responded r /\ status r = 404%Z) ->
   exists w',
     getResponse models w0 =
     (Throw (Error (match rev models with
                    | [] => "All models failed"
                    | model :: _ => "Model " ++ model ++ " not found (404)."
                    end)), w')
     /\ extends w0 (map (fun model => Fetch (requestFor model)) models) w'
     /\ List.length (networkCalls (trace w')) =
        List.length (networkCalls (trace w0)) + List.length models)
  /\
  (forall w',
     loop models None w0 = (Normal (Exhausted None), w') ->
     getResponse models w0 = (Throw (Error "All models failed"), w')).
Proof.
  split.
  - intros Hall.
    destruct (tryModels_all_404 models None w0 Hall) as [w' [Hrun Hext]].
    exists w'. split; [|split].
    + rewrite getGeminiResponseFrom_loop, Hrun, lastNotFound_reason.
      reflexivity.
    + exact Hext.
    + rewrite (extends_trace _ _ _ Hext), networkCalls_app, length_app,
        networkCalls_fetches, length_map. reflexivity.
  - intros w' Hrun. rewrite getGeminiResponseFrom_loop, Hrun. reflexivity.
Qed.

(** *** Exceptions *)

(** What the catch clause of the loop makes of an exception of the try
    block. *)
Lemma tryModels_exception pre model rest lastError0 lastError w0 w err w1 :
  loop pre lastError0 w0 = (Normal (Exhausted lastError), w) ->
  try model w = (Throw err, w1) ->
  loop (pre ++ model :: rest)%list lastError0 w0 =
  if stopsTheLoop (reasonOf err) then (Throw (Error (reasonOf err)), w1)
  else
    loop rest (Some (reasonOf err))
      (emit (ConsoleWarn ("Model " ++ model ++ " failed:") (reasonOf err)) w1).
Proof.
  intros Hpre Herr.
  rewrite (tryModels_at _ _ _ _ _ _ _ _ _ _ Hpre).
  unfold try_catch. rewrite Herr. unfold attemptFailed.
  destruct (stopsTheLoop (reasonOf err)); reflexivity.
Qed.


(** *** A body without parts *)

Lemma bind_ret {A C} (a : A) (k : A -> M C) : bind (ret a) k = k a.
Proof. reflexivity. Qed.

Lemma read_defined v k :
  v <> VNull -> v <> VUndefined -> read v k = ret (getProperty v k).
Proof. destruct v; intros H1 H2; try reflexivity; congruence. Qed.

(** C10. Wherever in the list the candidate stands, a success whose body
    passes the test of line 177 but whose [content.parts] is missing or is
    the empty array does not end the operation: reading [parts[0].text]
    raises a TypeError, its message has neither trigger word, so it is
    recorded as the last error and the loop goes on with the next
    candidate. *)
Theorem missing_parts_is_skipped
    pre model rest lastError w0 w r data content :
  loop pre None w0 = (Normal (Exhausted lastError), w) ->
  answer w model = Responded r ->
  ok r = true ->
  json r = JsonData data ->
  contentPresent data content ->
  getProperty content (Dot "parts") = VUndefined
  \/ getProperty content (Dot "parts") = VArray [] ->
  exists reason,
    try model w =
      (Throw (TypeError reason), emit (Fetch (requestFor model)) w)
    /\ stopsTheLoop reason = false
    /\ loop (pre ++ model :: rest)%list None w0 =
       loop rest (Some reason)
         (emit (ConsoleWarn ("Model " ++ model ++ " failed:") reason)
            (emit (Fetch (requestFor model)) w)).
Proof.
  intros Hpre Hr Hok Hjson (Hnull & Hundef & Hc & Hc0 & -> & Hcontent) Hparts.
  assert (Htry : exists reason,
             try model w =
               (Throw (TypeError reason), emit (Fetch (requestFor model)) w)
             /\ (reason = nullishReadMessage VUndefined (At 0)
                 \/ reason = nullishReadMessage VUndefined (Dot "text"))).
  { rewrite (attempt_ok _ _ _ _ _ _ _ Hr Hok Hjson).
    rewrite (read_defined _ _ Hnull Hundef), bind_ret, Hc.
    simpl negb. cbv iota.
    rewrite (read_truthy _ _ Hc), bind_ret, Hc0. simpl negb. cbv iota.
    rewrite (read_truthy _ _ Hc0), bind_ret, Hcontent. simpl negb. cbv iota.
    rewrite (read_truthy _ _ Hcontent), bind_ret.
    destruct Hparts as [-> | ->].
    - eexists. split; [reflexivity | left; reflexivity].
    - eexists. split; [reflexivity | right; reflexivity]. }
  destruct Htry as [reason [Htry Hreason]].
  assert (Hstop : stopsTheLoop reason = false)
    by (destruct Hreason as [-> | ->]; reflexivity).
  assert (Hmsg : reasonOf (TypeError reason) = reason)
    by (destruct Hreason as [-> | ->]; reflexivity).
  exists reason. split; [exact Htry | split; [exact Hstop|]].
  rewrite (tryModels_exception _ _ rest _ _ _ _ _ _ Hpre Htry), Hmsg, Hstop.
  reflexivity.
Qed.

End Operation.

Arguments makeRequestBody : simpl never.

(* ================================================================== *)
(** ** What a run of the requester leaves behind *)

Lemma pure_ret {A} (a : A) : pure (ret a).
Proof. intro w. reflexivity. Qed.

Lemma pure_throw {A} (e : exn) : pure (@throw A e).
Proof. intro w. reflexivity. Qed.

Lemma pure_read v k : pure (read v k).
Proof. destruct v; intro w; reflexivity. Qed.

Lemma pure_bind {A C} (m : M A) (k : A -> M C) :
  pure m -> (forall a, pure (k a)) -> pure (bind m k).
Proof.
  intros Hm Hk w. unfold bind. specialize (Hm w).
  destruct (m w) as [[a|e] w1]; simpl in Hm; subst w1; [apply Hk | reflexivity].
Qed.

Lemma pure_if {A} (b : bool) (m1 m2 : M A) :
  pure m1 -> pure m2 -> pure (if b then m1 else m2).
Proof. destruct b; auto. Qed.

Lemma pure_response_json r : pure (response_json r).
Proof. unfold response_json. destruct (json r); intro w; reflexivity. Qed.

Section Footprint.

Variable B : browser.
Variable GEMINI_API_KEY : string.
Variable body : requestBody.

(** The try block adds its one call to the trace and nothing else. *)
Lemma attempt_footprint model w :
  snd (attempt B GEMINI_API_KEY body model w) =
  emit (Fetch (modelRequest GEMINI_API_KEY body model)) w.
Proof.
  unfold attempt, bind at 1, fetch.
  destruct (respond B _ _) as [e|r]; [reflexivity|].
  match goal with
  | |- snd (?m ?w') = _ => assert (Hp : pure m); [|apply Hp]
  end.
  repeat first
    [ apply pure_if | apply pure_bind | intro
    | apply pure_ret | apply pure_throw | apply pure_read
    | apply pure_response_json ].
Qed.

Lemma guarded_footprint model w :
  exists events,
    extends w events
      (snd (try_catch (attempt B GEMINI_API_KEY body model)
              (attemptFailed model) w))
    /\ forallb requesterEvent events = true.
Proof.
  unfold try_catch.
  pose proof (attempt_footprint model w) as Hw.
  destruct (attempt B GEMINI_API_KEY body model w) as [[c|e] w1];
    simpl in Hw; subst w1.
  - eexists. split; [apply extends_emit | reflexivity].
  - unfold attemptFailed. destruct (stopsTheLoop (reasonOf e)).
    + eexists. split; [apply extends_emit | reflexivity].
    + eexists. split.
      * eapply extends_trans; apply extends_emit.
      * reflexivity.
Qed.

Lemma tryModels_footprint models lastError w :
  exists events,
    extends w events (snd (tryModels B GEMINI_API_KEY body models lastError w))
    /\ forallb requesterEvent events = true.
Proof.
  revert lastError w.
  induction models as [|model models IH]; intros lastError w.
  - exists []. split; [apply extends_nil | reflexivity].
  - rewrite tryModels_cons.
    destruct (guarded_footprint model w) as [ev1 [Hext1 Hev1]].
    destruct (try_catch _ _ w) as [[[v|s]|e] w1]; simpl in Hext1.
    + exists ev1. split; assumption.
    + destruct (IH (Some s) w1) as [ev2 [Hext2 Hev2]].
      exists (ev1 ++ ev2)%list. split.
      * eapply extends_trans; eassumption.
      * rewrite forallb_app, Hev1, Hev2. reflexivity.
    + exists ev1. split; assumption.
Qed.

End Footprint.

(** A run of [getGeminiResponse], however it ends, adds calls and
    warnings to the trace and touches nothing else of the page. *)
Lemma getGeminiResponseFrom_footprint B GEMINI_API_KEY models userMessage w :
  exists events,
    extends w events
      (snd (getGeminiResponseFrom B GEMINI_API_KEY models userMessage w))
    /\ forallb requesterEvent events = true.
Proof.
  rewrite getGeminiResponseFrom_loop.
  destruct (tryModels_footprint B GEMINI_API_KEY
              (makeRequestBody userMessage) models None w)
    as [events [Hext Hev]].
  exists events. split; [|exact Hev].
  destruct (tryModels _ _ _ _ _ _) as [[[v|le]|e] w1]; exact Hext.
Qed.

(* ================================================================== *)
(** ** The conversation view *)

Lemma trimStart_blank s : allWhiteSpace s = true -> Str.trimStart s = "".
Proof.
  induction s as [|c s IH]; simpl; [reflexivity|].
  intros H. apply andb_true_iff in H as [Hc Hs]. rewrite Hc. auto.
Qed.

Lemma trim_blank s : allWhiteSpace s = true -> Str.trim s = "".
Proof. intros H. unfold Str.trim. rewrite (trimStart_blank s H). reflexivity. Qed.

Lemma trimEnd_empty s : Str.trimEnd s = "" -> allWhiteSpace s = true.
Proof.
  induction s as [|c s IH]; simpl; [reflexivity|].
  destruct (Str.trimEnd s); [|discriminate].
  destruct (Str.isWhiteSpace c); [auto | discriminate].
Qed.

Lemma trimStart_whiteSpace s :
  allWhiteSpace (Str.trimStart s) = true -> allWhiteSpace s = true.
Proof.
  induction s as [|c s IH]; simpl; [reflexivity|].
  destruct (Str.isWhiteSpace c) eqn:Hc; simpl; [auto|].
  rewrite Hc. discriminate.
Qed.

(** The input is rejected exactly when it is blank. *)
Lemma trim_empty_iff s : Str.trim s = "" <-> allWhiteSpace s = true.
Proof.
  split; [|apply trim_blank].
  intros H. apply trimStart_whiteSpace, trimEnd_empty, H.
Qed.

Lemma requester_event_keeps_hold e :
  requesterEvent e = true -> releases e = false.
Proof. destruct e; simpl; intros H; try discriminate; reflexivity. Qed.

Lemma requester_events_keep_hold events :
  forallb requesterEvent events = true ->
  forallb (fun e => negb (releases e)) events = true.
Proof.
  induction events as [|e events IH]; simpl; [reflexivity|].
  intros H. apply andb_true_iff in H as [He Hev].
  rewrite (requester_event_keeps_hold e He). simpl. auto.
Qed.

Section View.

Variable B : browser.
Variable GEMINI_API_KEY : string.
Variable models : list string.

Local Abbreviation submit := (sendMessageFrom B GEMINI_API_KEY models).
Local Abbreviation getResponse :=
  (getGeminiResponseFrom B GEMINI_API_KEY models).

(** C5. A blank input (empty, or white space only) is rejected: the error
    banner shows and that is the only effect, so no network call is made
    and the input field keeps its content. *)
Theorem blank_input_rejected w :
  allWhiteSpace (userInput_value w) = true ->
  exists w',
    submit w = (Normal tt, w')
    /\ errorMessage_textContent w' = "Please enter a message"
    /\ errorMessage_active w' = true
    /\ userInput_value w' = userInput_value w
    /\ trace w' = (trace w ++ [ShowError "Please enter a message"])%list
    /\ networkCalls (trace w') = networkCalls (trace w).
Proof.
  intros Hblank. eexists.
  split.
  - unfold sendMessageFrom, bind, userInput_get_value.
    rewrite (trim_blank _ Hblank). reflexivity.
  - simpl. repeat split.
    rewrite networkCalls_app. simpl. apply app_nil_r.
Qed.

(** C6. A submission that gets as far as the requester always completes;
    whether the requester resolved or rejected, its trace ends with the
    button enabled again and the focus given back to the input, and neither
    of the two happens anywhere earlier in the exchange. *)
Theorem submit_released_exactly_once w :
  Str.trim (userInput_value w) <> "" ->
  GEMINI_API_KEY <> "YOUR_API_KEY_HERE" ->
  exists before w',
    submit w = (Normal tt, w')
    /\ trace w' =
       (trace w ++ before ++ [SetSendDisabled false; FocusInput])%list
    /\ forallb (fun e => negb (releases e)) before = true
    /\ networkCalls (trace w') =
       networkCalls (trace (snd (getResponse (Str.trim (userInput_value w))
                                   (requestWorld B (Str.trim (userInput_value w)) w))))
    /\ sendBtn_disabled w' = false.
Proof.
  intros Hne Hkey. apply String.eqb_neq in Hne, Hkey.
  set (message := Str.trim (userInput_value w)) in *.
  destruct (getGeminiResponseFrom_footprint B GEMINI_API_KEY models message
              (requestWorld B message w)) as [events [Hext Hev]].
  apply requester_events_keep_hold in Hev.
  unfold sendMessageFrom.
  unfold bind at 1. unfold userInput_get_value. fold message.
  rewrite Hne, Hkey.
  unfold try_finally, try_catch, displayAIMessage, bind, lift. simpl.
  unfold requestWorld, bind, lift in Hext. simpl in Hext.
  unfold requestWorld, bind, lift. simpl.
  destruct (getGeminiResponseFrom _ _ _ _ _) as [[ai|e] w2];
    simpl in Hext |- *; [destruct (escapeHtml B ai) as [escaped|err]|];
    rewrite Hext; simpl.
  - exists ([ClearError;
             AppendMessage "message user-message"
               ("<p>" ++ serializeText message ++ "</p>");
             SetInputValue ""; SetSendDisabled true; SetLoading true]
            ++ events
            ++ [SetLoading false;
                AppendMessage "message ai-message"
                  ("<p>" ++ Str.replaceAll LF "<br>" escaped ++ "</p>");
                ScrollToBottom])%list.
    eexists. split; [reflexivity|]. simpl.
    split; [|split; [|split]].
    + rewrite <- !app_assoc. reflexivity.
    + rewrite forallb_app, Hev. reflexivity.
    + rewrite !networkCalls_app. simpl. rewrite !app_nil_r. reflexivity.
    + reflexivity.
  - exists ([ClearError;
             AppendMessage "message user-message"
               ("<p>" ++ serializeText message ++ "</p>");
             SetInputValue ""; SetSendDisabled true; SetLoading true]
            ++ events
            ++ [SetLoading false; SetLoading false;
                ShowError ("Error: " ++ err_message err);
                ConsoleError "Full error:" err])%list.
    eexists. split; [reflexivity|]. simpl.
    split; [|split; [|split]].
    + rewrite <- !app_assoc. reflexivity.
    + rewrite forallb_app, Hev. reflexivity.
    + rewrite !networkCalls_app. simpl. rewrite !app_nil_r. reflexivity.
    + reflexivity.
  - exists ([ClearError;
             AppendMessage "message user-message"
               ("<p>" ++ serializeText message ++ "</p>");
             SetInputValue ""; SetSendDisabled true; SetLoading true]
            ++ events
            ++ [SetLoading false;
                ShowError ("Error: " ++ err_message e);
                ConsoleError "Full error:" e])%list.
    eexists. split; [reflexivity|]. simpl.
    split; [|split; [|split]].
    + rewrite <- !app_assoc. reflexivity.
    + rewrite forallb_app, Hev. reflexivity.
    + rewrite !networkCalls_app. simpl. rewrite !app_nil_r. reflexivity.
    + reflexivity.
Qed.

(** C8, amended. When the requester fails, the banner shows the text
    "Error: " followed by the reason of the failure, and no assistant
    turn is added to the log. *)
Theorem failure_shown_with_prefix w e w2 :
  Str.trim (userInput_value w) <> "" ->
  GEMINI_API_KEY <> "YOUR_API_KEY_HERE" ->
  getResponse (Str.trim (userInput_value w))
    (requestWorld B (Str.trim (userInput_value w)) w) = (Throw e, w2) ->
  exists w',
    submit w = (Normal tt, w')
    /\ errorMessage_textContent w' = "Error: " ++ err_message e
    /\ errorMessage_active w' = true
    /\ chatContainer w' =
       chatContainer (requestWorld B (Str.trim (userInput_value w)) w).
Proof.
  intros Hne Hkey Hrun. apply String.eqb_neq in Hne, Hkey.
  set (message := Str.trim (userInput_value w)) in *.
  destruct (getGeminiResponseFrom_footprint B GEMINI_API_KEY models message
              (requestWorld B message w)) as [events [Hext _]].
  rewrite Hrun in Hext. simpl in Hext.
  unfold sendMessageFrom.
  unfold bind at 1. unfold userInput_get_value. fold message.
  rewrite Hne, Hkey.
  unfold try_finally, try_catch, bind. simpl.
  unfold requestWorld, bind in Hrun. simpl in Hrun. rewrite Hrun. simpl.
  eexists. split; [reflexivity|]. simpl.
  split; [reflexivity | split; [reflexivity|]].
  rewrite Hext. reflexivity.
Qed.

End View.

(* ================================================================== *)
(** ** Rendering *)

Lemma append_assoc (s1 s2 s3 : string) : (s1 ++ s2) ++ s3 = s1 ++ s2 ++ s3.
Proof. induction s1 as [|c s1 IH]; simpl; [reflexivity | rewrite IH; reflexivity]. Qed.

Lemma append_empty_r (s : string) : s ++ "" = s.
Proof. induction s as [|c s IH]; simpl; [reflexivity | rewrite IH; reflexivity]. Qed.

Lemma length_append (s1 s2 : string) :
  String.length (s1 ++ s2) = String.length s1 + String.length s2.
Proof. induction s1 as [|c s1 IH]; simpl; [reflexivity | rewrite IH; reflexivity]. Qed.

Lemma substring_head (s t : string) : substring 0 (String.length s) (s ++ t) = s.
Proof.
  induction s as [|c s IH]; simpl.
  - destruct t; reflexivity.
  - rewrite IH. reflexivity.
Qed.

Lemma substring_tail (s t : string) :
  substring (String.length s) (String.length t) (s ++ t) = t.
Proof.
  induction s as [|c s IH]; simpl; [|exact IH].
  induction t as [|d t IHt]; simpl; [reflexivity | rewrite IHt; reflexivity].
Qed.

(** A paragraph is read back from what stands between its tags. *)
Lemma paragraphOf_wrap (inner : string) :
  paragraphOf ("<p>" ++ inner ++ "</p>") = readInline inner.
Proof.
  unfold paragraphOf. simpl.
  rewrite length_append. simpl String.length.
  replace (String.length inner + 4 - 4) with (String.length inner) by lia.
  pose proof (substring_tail inner "</p>") as Ht. simpl String.length in Ht.
  rewrite Ht, substring_head. reflexivity.
Qed.

Lemma readerRun_app st (s1 s2 : string) :
  readerRun st (s1 ++ s2) = readerRun (readerRun st s1) s2.
Proof. revert st. induction s1 as [|c s1 IH]; intros st; simpl; auto. Qed.

Lemma replaceAll_app c by_ (s1 s2 : string) :
  Str.replaceAll c by_ (s1 ++ s2) =
  Str.replaceAll c by_ s1 ++ Str.replaceAll c by_ s2.
Proof.
  induction s1 as [|d s1 IH]; simpl; [reflexivity|].
  destruct (Ascii.eqb d c); rewrite IH; [|reflexivity].
  symmetry. apply append_assoc.
Qed.

(** For a string [escapeHtml] never throws: it is [serializeText]. *)
Lemma escapeHtml_string (B : browser) (s : string) :
  escapeHtml B (VString s) = Normal (serializeText s).
Proof. reflexivity. Qed.

Lemma charCase_total c : charCase c.
Proof.
  destruct (Ascii.eqb_spec c LF); [apply IsLF; assumption|].
  destruct (Ascii.eqb_spec c CR); [apply IsCR; assumption|].
  destruct (Ascii.eqb_spec c NUL); [apply IsNUL; assumption|].
  destruct (Ascii.eqb_spec c "&"); [apply IsAmp; assumption|].
  destruct (Ascii.eqb_spec c NBSP); [apply IsNBSP; assumption|].
  destruct (Ascii.eqb_spec c "<"); [apply IsLt; assumption|].
  destruct (Ascii.eqb_spec c ">"); [apply IsGt; assumption|].
  apply IsOther; apply Ascii.eqb_neq; assumption.
Qed.

(** Escaping and the normalisation of newlines commute: escaping writes
    CR and LF as they are and nothing else that holds them. *)
Lemma normalizeFrom_serializeText afterCR s :
  normalizeFrom afterCR (serializeText s) =
  serializeText (normalizeFrom afterCR s).
Proof.
  revert afterCR. induction s as [|c s IH]; intros afterCR; [reflexivity|].
  destruct (charCase_total c) as [->| ->| ->| ->| ->| ->| ->| HLF HCR HNUL Hamp Hnbsp Hlt Hgt].
  - destruct afterCR; simpl; rewrite IH; reflexivity.
  - simpl. rewrite IH. reflexivity.
  - simpl. rewrite IH. reflexivity.
  - simpl. rewrite IH. reflexivity.
  - simpl. rewrite IH. reflexivity.
  - simpl. rewrite IH. reflexivity.
  - simpl. rewrite IH. reflexivity.
  - simpl. rewrite HCR, HLF. simpl.
    unfold escapeChar. rewrite Hamp, Hnbsp, Hlt, Hgt. simpl.
    rewrite HCR, HLF, IH. reflexivity.
Qed.

(** What [escapeChar] writes for a character is read back as that
    character, as nothing for U+0000. *)
Lemma readerRun_escapeChar c nodes :
  readerRun (Some (InData, nodes)) (escapeChar c) =
  Some (InData, if Ascii.eqb c NUL then nodes else addChar c nodes).
Proof.
  destruct (charCase_total c) as [->| ->| ->| ->| ->| ->| ->| HLF HCR HNUL Hamp Hnbsp Hlt Hgt];
    try reflexivity.
  unfold escapeChar. rewrite Hamp, Hnbsp, Hlt, Hgt. simpl.
  rewrite Hlt, Hamp, HNUL. reflexivity.
Qed.

Lemma readerRun_serializeText s nodes :
  readerRun (Some (InData, nodes)) (serializeText s) =
  Some (InData, addText s nodes).
Proof.
  revert nodes. induction s as [|c s IH]; intros nodes; simpl; [reflexivity|].
  rewrite readerRun_app, readerRun_escapeChar. apply IH.
Qed.

(** The markup of an escaped string is read as the text of that string
    with its newlines normalised. *)
Lemma readInline_serializeText s :
  readInline (serializeText s) = Some (rev (addText (normalizeNewlines s) [])).
Proof.
  unfold readInline, normalizeNewlines.
  rewrite normalizeFrom_serializeText, readerRun_serializeText. reflexivity.
Qed.

(** The markup of the assistant's message: every line feed was replaced
    by a [br] tag, so a CR is never followed by one. *)
Lemma readerRun_lines afterCR s nodes :
  readerRun (Some (InData, nodes))
    (normalizeFrom afterCR (Str.replaceAll LF "<br>" (serializeText s))) =
  Some (InData, addLines s nodes).
Proof.
  revert afterCR nodes. induction s as [|c s IH]; intros afterCR nodes;
    [reflexivity|].
  change (serializeText (String c s)) with (escapeChar c ++ serializeText s).
  rewrite replaceAll_app.
  destruct (charCase_total c) as [->| ->| ->| ->| ->| ->| ->| HLF HCR HNUL Hamp Hnbsp Hlt Hgt];
    try (simpl; apply IH).
  unfold escapeChar. rewrite Hamp, Hnbsp, Hlt, Hgt. simpl.
  rewrite ?HLF, ?HCR. simpl. rewrite ?HLF, ?HCR, ?Hlt, ?Hamp, ?HNUL.
  simpl. rewrite ?Hlt, ?Hamp, ?HNUL. apply IH.
Qed.

Lemma readInline_lines s :
  readInline (Str.replaceAll LF "<br>" (serializeText s)) =
  Some (rev (addLines s [])).
Proof. unfold readInline, normalizeNewlines. rewrite readerRun_lines. reflexivity. Qed.

Lemma visibleText_app l1 l2 :
  visibleText (l1 ++ l2) = visibleText l1 ++ visibleText l2.
Proof.
  induction l1 as [|[s|] l1 IH]; simpl; [reflexivity | |];
    rewrite IH; [symmetry; apply append_assoc | reflexivity].
Qed.

Lemma visibleText_addChar c nodes :
  visibleText (rev (addChar c nodes)) =
  visibleText (rev nodes) ++ String c "".
Proof.
  destruct nodes as [|[s|] older]; simpl; try reflexivity.
  - rewrite !visibleText_app. simpl. rewrite !append_empty_r.
    symmetry. apply append_assoc.
  - rewrite !visibleText_app. reflexivity.
Qed.

Lemma visibleText_addText s nodes :
  visibleText (rev (addText s nodes)) = visibleText (rev nodes) ++ dropNul s.
Proof.
  revert nodes. induction s as [|c s IH]; intros nodes; simpl.
  - symmetry. apply append_empty_r.
  - rewrite IH. destruct (Ascii.eqb c NUL); [reflexivity|].
    rewrite visibleText_addChar, append_assoc. reflexivity.
Qed.

Lemma visibleText_addLines s nodes :
  visibleText (rev (addLines s nodes)) =
  visibleText (rev nodes) ++ dropNul (crToLf s).
Proof.
  revert nodes. induction s as [|c s IH]; intros nodes.
  - simpl. symmetry. apply append_empty_r.
  - change (addLines (String c s) nodes)
      with (addLines s
              (if Ascii.eqb c LF then Br :: nodes
               else if Ascii.eqb c CR then addChar LF nodes
               else if Ascii.eqb c NUL then nodes
               else addChar c nodes)).
    rewrite IH.
    destruct (charCase_total c) as [->| ->| ->| ->| ->| ->| ->| HLF HCR HNUL Hamp Hnbsp Hlt Hgt].
    + simpl. rewrite visibleText_app. simpl. rewrite append_assoc. reflexivity.
    + simpl. rewrite visibleText_addChar, append_assoc. reflexivity.
    + reflexivity.
    + simpl. rewrite visibleText_addChar, append_assoc. reflexivity.
    + simpl. rewrite visibleText_addChar, append_assoc. reflexivity.
    + simpl. rewrite visibleText_addChar, append_assoc. reflexivity.
    + simpl. rewrite visibleText_addChar, append_assoc. reflexivity.
    + simpl. rewrite HLF, HCR, HNUL.
      rewrite visibleText_addChar, append_assoc. reflexivity.
Qed.

Lemma isText_addChar c nodes :
  forallb isText (addChar c nodes) = forallb isText nodes.
Proof. destruct nodes as [|[s|] older]; reflexivity. Qed.

Lemma isText_addText s nodes :
  forallb isText (addText s nodes) = forallb isText nodes.
Proof.
  revert nodes. induction s as [|c s IH]; intros nodes; simpl; [reflexivity|].
  rewrite IH. destruct (Ascii.eqb c NUL); [reflexivity | apply isText_addChar].
Qed.

Lemma brCount_addChar c nodes : brCount (addChar c nodes) = brCount nodes.
Proof. destruct nodes as [|[s|] older]; reflexivity. Qed.

Lemma brCount_app l1 l2 : brCount (l1 ++ l2) = brCount l1 + brCount l2.
Proof.
  induction l1 as [|[s|] l1 IH]; simpl; [reflexivity | exact IH | rewrite IH; reflexivity].
Qed.

Lemma brCount_rev l : brCount (rev l) = brCount l.
Proof.
  induction l as [|[s|] l IH]; simpl; [reflexivity | |];
    rewrite brCount_app, IH; simpl; lia.
Qed.

(** One [br] element for each line feed of the message. *)
Lemma brCount_addLines s nodes :
  brCount (addLines s nodes) = brCount nodes + countChar LF s.
Proof.
  revert nodes. induction s as [|c s IH]; intros nodes; simpl; [lia|].
  rewrite IH.
  destruct (Ascii.eqb c LF); [simpl; lia|].
  destruct (Ascii.eqb c CR); [rewrite brCount_addChar; lia|].
  destruct (Ascii.eqb c NUL); [lia|].
  rewrite brCount_addChar. lia.
Qed.

Lemma hasChar_append c s t : hasChar c (s ++ t) = hasChar c s || hasChar c t.
Proof.
  induction s as [|d s IH]; simpl; [reflexivity|].
  rewrite IH. apply orb_assoc.
Qed.

Lemma singleLine_addChar c nodes :
  c <> LF ->
  forallb singleLine (addChar c nodes) = forallb singleLine nodes.
Proof.
  intros Hc. apply Ascii.eqb_neq in Hc.
  destruct nodes as [|[s|] older]; simpl; rewrite ?Hc; try reflexivity.
  rewrite hasChar_append. simpl. rewrite Hc, !orb_false_r. reflexivity.
Qed.

Lemma singleLine_addLines s nodes :
  hasChar CR s = false ->
  forallb singleLine (addLines s nodes) = forallb singleLine nodes.
Proof.
  revert nodes. induction s as [|c s IH]; intros nodes Hs; [reflexivity|].
  simpl in Hs. apply orb_false_iff in Hs as [HCR Hs].
  simpl. rewrite (IH _ Hs), HCR.
  destruct (Ascii.eqb_spec c LF) as [->|Hc]; [reflexivity|].
  destruct (Ascii.eqb c NUL); [reflexivity|].
  apply singleLine_addChar, Hc.
Qed.

Lemma forallb_rev {A} (f : A -> bool) (l : list A) :
  forallb f (rev l) = forallb f l.
Proof.
  induction l as [|a l IH]; simpl; [reflexivity|].
  rewrite forallb_app, IH. simpl. rewrite andb_true_r. apply andb_comm.
Qed.

(** On a string without CR and U+0000 the parser changes nothing. *)
Lemma normalizeNewlines_plain s :
  hasChar CR s = false -> normalizeNewlines s = s.
Proof.
  unfold normalizeNewlines.
  induction s as [|c s IH]; intros Hs; [reflexivity|].
  simpl in Hs. apply orb_false_iff in Hs as [HCR Hs].
  simpl. rewrite HCR, (IH Hs). destruct (Ascii.eqb_spec c LF) as [->|]; reflexivity.
Qed.

Lemma dropNul_plain s : hasChar NUL s = false -> dropNul s = s.
Proof.
  induction s as [|c s IH]; intros Hs; [reflexivity|].
  simpl in Hs. apply orb_false_iff in Hs as [Hc Hs].
  simpl. rewrite Hc, (IH Hs). reflexivity.
Qed.

Lemma crToLf_plain s : hasChar CR s = false -> crToLf s = s.
Proof.
  induction s as [|c s IH]; intros Hs; [reflexivity|].
  simpl in Hs. apply orb_false_iff in Hs as [Hc Hs].
  simpl. rewrite Hc, (IH Hs). reflexivity.
Qed.

Lemma parsedText_plain s : plain s = true -> parsedText s = s.
Proof.
  unfold plain, parsedText. intros H.
  apply andb_true_iff in H as [HCR HNUL].
  apply negb_true_iff in HCR, HNUL.
  rewrite (normalizeNewlines_plain s HCR). apply dropNul_plain, HNUL.
Qed.

(** C7. A message string shown by [displayUserMessage] or by
    [displayAIMessage] goes through [escapeHtml], which does not throw on
    a string, and the markup put in the log is read back by the parser as
    character data and line breaks only, never as other markup: the
    user's message as text nodes that spell the message, the assistant's
    message as text nodes and one [br] element for each line feed.  What
    the parser itself does to character data is all that changes: a CR
    becomes a line feed and a U+0000 is dropped, so a message that holds
    neither is read back to the letter. *)
Theorem messages_render_as_text (B : browser) (message : string) (w : world) :
  (exists w' escaped nodes,
     escapeHtml B (VString message) = Normal escaped
     /\ displayUserMessage B message w = (Normal tt, w')
     /\ chatContainer w' =
        (chatContainer w
         ++ [("message user-message", ("<p>" ++ escaped ++ "</p>")%string)])%list
     /\ paragraphOf ("<p>" ++ escaped ++ "</p>") = Some nodes
     /\ forallb isText nodes = true
     /\ visibleText nodes = parsedText message
     /\ (plain message = true -> visibleText nodes = message))
  /\
  (exists w' escaped nodes,
     escapeHtml B (VString message) = Normal escaped
     /\ displayAIMessage B (VString message) w = (Normal tt, w')
     /\ chatContainer w' =
        (chatContainer w
         ++ [("message ai-message",
              ("<p>" ++ Str.replaceAll LF "<br>" escaped ++ "</p>")%string)])%list
     /\ paragraphOf ("<p>" ++ Str.replaceAll LF "<br>" escaped ++ "</p>")
        = Some nodes
     /\ brCount nodes = countChar LF message
     /\ visibleText nodes = dropNul (crToLf message)
     /\ (plain message = true ->
         visibleText nodes = message /\ forallb singleLine nodes = true)).
Proof.
  split.
  - exists (snd (displayUserMessage B message w)), (serializeText message),
      (rev (addText (normalizeNewlines message) [])).
    split; [reflexivity|]. split; [reflexivity|]. split; [reflexivity|].
    split; [rewrite paragraphOf_wrap; apply readInline_serializeText|].
    split; [rewrite forallb_rev, isText_addText; reflexivity|].
    assert (Hvisible :
              visibleText (rev (addText (normalizeNewlines message) []))
              = parsedText message)
      by (rewrite visibleText_addText; reflexivity).
    split; [exact Hvisible|].
    intros Hplain. rewrite Hvisible. apply parsedText_plain, Hplain.
  - exists (snd (displayAIMessage B (VString message) w)),
      (serializeText message), (rev (addLines message [])).
    split; [reflexivity|]. split; [reflexivity|]. split; [reflexivity|].
    split; [rewrite paragraphOf_wrap; apply readInline_lines|].
    split; [rewrite brCount_rev, brCount_addLines; reflexivity|].
    assert (Hvisible :
              visibleText (rev (addLines message []))
              = dropNul (crToLf message))
      by (rewrite visibleText_addLines; reflexivity).
    split; [exact Hvisible|].
    intros Hplain. unfold plain in Hplain.
    apply andb_true_iff in Hplain as [HCR HNUL].
    apply negb_true_iff in HCR, HNUL.
    split.
    + rewrite Hvisible, (crToLf_plain _ HCR). apply dropNul_plain, HNUL.
    + rewrite forallb_rev, (singleLine_addLines _ _ HCR). reflexivity.
Qed.

(* ================================================================== *)
(** ** Concrete runs *)

(** A 401 on the second of three candidates, and a 429 on the second of
    three: the operation fails with the matching reason after two calls. *)
Lemma status_401_429_abort_witness :
  (let run :=
     getGeminiResponseFrom
       (scripted [httpAnswer 404 "Not Found" VNull;
                  httpAnswer 401 "Unauthorized" VNull])
       "key" ["a"; "b"; "c"] "What is gravity?" page0 in
   fst run =
     Throw (Error "Invalid or missing API key. Check your Gemini API key.")
   /\ List.length (networkCalls (trace (snd run))) = 2)
  /\
  (let run :=
     getGeminiResponseFrom
       (scripted [httpAnswer 404 "Not Found" VNull;
                  httpAnswer 429 "Too Many Requests" VNull])
       "key" ["a"; "b"; "c"] "What is gravity?" page0 in
   fst run =
     Throw (Error "Rate limit exceeded. Please wait a moment and try again.")
   /\ List.length (networkCalls (trace (snd run))) = 2).
Proof.
  split; cbv zeta.
  - pose proof
      (proj1 (status_401_429_abort
                (scripted [httpAnswer 404 "Not Found" VNull;
                           httpAnswer 401 "Unauthorized" VNull])
                "key" "What is gravity?" ["a"] "b" ["c"]
                _ page0 _ _ eq_refl eq_refl) eq_refl) as H.
    change (["a"] ++ ["b"; "c"])%list with ["a"; "b"; "c"] in H.
    rewrite H. split; reflexivity.
  - pose proof
      (proj2 (status_401_429_abort
                (scripted [httpAnswer 404 "Not Found" VNull;
                           httpAnswer 429 "Too Many Requests" VNull])
                "key" "What is gravity?" ["a"] "b" ["c"]
                _ page0 _ _ eq_refl eq_refl) eq_refl) as H.
    change (["a"] ++ ["b"; "c"])%list with ["a"; "b"; "c"] in H.
    rewrite H. split; reflexivity.
Defined.

(** C1 as stated fails: a 503 on the first candidate does not end the
    operation; the second candidate is called and its answer returned. *)
Lemma status_503_does_not_abort :
  answerAt
    (scripted [httpAnswer 503 "Service Unavailable" VNull;
               httpAnswer 200 "OK" (answerBody "Gravity is...")])
    "key" (makeRequestBody "What is gravity?") page0 "a"
  = httpAnswer 503 "Service Unavailable" VNull
  /\ fst (getGeminiResponseFrom
            (scripted [httpAnswer 503 "Service Unavailable" VNull;
                       httpAnswer 200 "OK" (answerBody "Gravity is...")])
            "key" ["a"; "b"] "What is gravity?" page0)
     = Normal (VString "Gravity is...")
  /\ fst (getGeminiResponseFrom
            (scripted [httpAnswer 503 "Service Unavailable" VNull;
                       httpAnswer 200 "OK" (answerBody "Gravity is...")])
            "key" ["a"; "b"] "What is gravity?" page0)
     <> Throw (Error "Gemini API server error. Please try again later.")
  /\ List.length
       (networkCalls
          (trace
             (snd (getGeminiResponseFrom
                     (scripted [httpAnswer 503 "Service Unavailable" VNull;
                                httpAnswer 200 "OK"
                                  (answerBody "Gravity is...")])
                     "key" ["a"; "b"] "What is gravity?" page0)))) = 2.
Proof.
  split; [reflexivity|]. split; [reflexivity|].
  split; [|reflexivity]. vm_compute. discriminate.
Qed.

(** A 503 on the second of three candidates: the loop goes on with the
    third, the reason of the second recorded. *)
Lemma status_5xx_other_than_500_continues_witness :
  tryModels
    (scripted [httpAnswer 404 "Not Found" VNull;
               httpAnswer 503 "Service Unavailable" VNull])
    "key" (makeRequestBody "What is gravity?") ["a"; "b"; "c"] None page0
  =
  tryModels
    (scripted [httpAnswer 404 "Not Found" VNull;
               httpAnswer 503 "Service Unavailable" VNull])
    "key" (makeRequestBody "What is gravity?") ["c"]
    (Some "API Error for model b: 503 Service Unavailable")
    (emit (Fetch (modelRequest "key" (makeRequestBody "What is gravity?") "b"))
       (emit (Fetch (modelRequest "key" (makeRequestBody "What is gravity?")
                       "a"))
          page0)).
Proof.
  exact (status_5xx_other_than_500_continues
           (scripted [httpAnswer 404 "Not Found" VNull;
                      httpAnswer 503 "Service Unavailable" VNull])
           "key" "What is gravity?" ["a"] "b" ["c"] None _ page0 _ _
           eq_refl eq_refl ltac:(simpl; lia)).
Defined.

(** The example of the specification: candidates a and b, a answered with
    404, b with a well-formed success. *)
Lemma second_candidate_answers_witness :
  fst (getGeminiResponseFrom
         (scripted [httpAnswer 404 "Not Found" VNull;
                    httpAnswer 200 "OK" (answerBody "Gravity is...")])
         "key" ["a"; "b"] "What is gravity?" page0)
  = Normal (VString "Gravity is...")
  /\ List.length
       (networkCalls
          (trace
             (snd (getGeminiResponseFrom
                     (scripted [httpAnswer 404 "Not Found" VNull;
                                httpAnswer 200 "OK"
                                  (answerBody "Gravity is...")])
                     "key" ["a"; "b"] "What is gravity?" page0)))) = 2.
Proof.
  destruct (second_candidate_answers
              (scripted [httpAnswer 404 "Not Found" VNull;
                         httpAnswer 200 "OK" (answerBody "Gravity is...")])
              "key" "What is gravity?" "a" "b" [] page0 _ _ _ _
              eq_refl eq_refl eq_refl eq_refl eq_refl eq_refl)
    as [w' [Hrun [_ Hcalls]]].
  rewrite Hrun. simpl fst. simpl snd. rewrite Hcalls.
  split; reflexivity.
Defined.

(** The shipped list against a network that knows none of the models, and
    an empty list. *)
Lemma all_candidates_not_found_witness :
  fst (getGeminiResponseFrom (always (httpAnswer 404 "Not Found" VNull))
         "key" MODELS_TO_TRY "What is gravity?" page0)
  = Throw (Error "Model gemini-pro not found (404).")
  /\ List.length
       (networkCalls
          (trace
             (snd (getGeminiResponseFrom
                     (always (httpAnswer 404 "Not Found" VNull))
                     "key" MODELS_TO_TRY "What is gravity?" page0)))) = 5
  /\ getGeminiResponseFrom (always (httpAnswer 404 "Not Found" VNull))
       "key" [] "What is gravity?" page0
     = (Throw (Error "All models failed"), page0).
Proof.
  destruct (proj1 (all_candidates_not_found
                     (always (httpAnswer 404 "Not Found" VNull))
                     "key" "What is gravity?" MODELS_TO_TRY page0))
    as [w' [Hrun [_ Hlen]]].
  { intros n req. eexists. split; reflexivity. }
  rewrite Hrun. simpl fst. simpl snd. rewrite Hlen.
  split; [reflexivity|]. split; [reflexivity|].
  exact (proj2 (all_candidates_not_found
                  (always (httpAnswer 404 "Not Found" VNull))
                  "key" "What is gravity?" [] page0) page0 eq_refl).
Defined.

(** White space only in the input. *)
Lemma blank_input_rejected_witness :
  exists w',
    sendMessage (always (httpAnswer 200 "OK" (answerBody "Gravity is...")))
      "key" blankPage = (Normal tt, w')
    /\ errorMessage_textContent w' = "Please enter a message"
    /\ errorMessage_active w' = true
    /\ userInput_value w' = userInput_value blankPage
    /\ trace w' = (trace blankPage ++ [ShowError "Please enter a message"])%list
    /\ networkCalls (trace w') = networkCalls (trace blankPage).
Proof.
  exact (blank_input_rejected
           (always (httpAnswer 200 "OK" (answerBody "Gravity is...")))
           "key" MODELS_TO_TRY blankPage eq_refl).
Defined.

(** One exchange that succeeds and one that fails. *)
Lemma submit_released_exactly_once_witness :
  (exists before w',
     sendMessage (always (httpAnswer 200 "OK" (answerBody "Gravity is...")))
       "key" page0 = (Normal tt, w')
     /\ trace w' =
        (trace page0 ++ before ++ [SetSendDisabled false; FocusInput])%list
     /\ forallb (fun e => negb (releases e)) before = true
     /\ List.length (networkCalls (trace w')) = 1
     /\ sendBtn_disabled w' = false)
  /\
  (exists before w',
     sendMessage (always (httpAnswer 401 "Unauthorized" VNull))
       "key" page0 = (Normal tt, w')
     /\ trace w' =
        (trace page0 ++ before ++ [SetSendDisabled false; FocusInput])%list
     /\ forallb (fun e => negb (releases e)) before = true
     /\ List.length (networkCalls (trace w')) = 1
     /\ sendBtn_disabled w' = false).
Proof.
  split.
  - destruct (submit_released_exactly_once
                (always (httpAnswer 200 "OK" (answerBody "Gravity is...")))
                "key" MODELS_TO_TRY page0
                (proj1 (String.eqb_neq (Str.trim (userInput_value page0)) "")
                   eq_refl)
                (proj1 (String.eqb_neq "key" "YOUR_API_KEY_HERE") eq_refl))
      as [before [w' [Hrun [Htrace [Hhold [Hcalls Hbtn]]]]]].
    exists before, w'. repeat split; try assumption.
    rewrite Hcalls. reflexivity.
  - destruct (submit_released_exactly_once
                (always (httpAnswer 401 "Unauthorized" VNull))
                "key" MODELS_TO_TRY page0
                (proj1 (String.eqb_neq (Str.trim (userInput_value page0)) "")
                   eq_refl)
                (proj1 (String.eqb_neq "key" "YOUR_API_KEY_HERE") eq_refl))
      as [before [w' [Hrun [Htrace [Hhold [Hcalls Hbtn]]]]]].
    exists before, w'. repeat split; try assumption.
    rewrite Hcalls. reflexivity.
Defined.

(** C8 as stated fails: on a rejected key the requester fails with the
    invalid-key reason, and the banner shows that reason behind the
    prefix "Error: ", not the reason alone. *)
Lemma banner_is_not_the_bare_reason :
  fst (getGeminiResponse (always (httpAnswer 401 "Unauthorized" VNull)) "key"
         (Str.trim (userInput_value page0))
         (requestWorld (always (httpAnswer 401 "Unauthorized" VNull))
            (Str.trim (userInput_value page0)) page0))
  = Throw (Error "Invalid or missing API key. Check your Gemini API key.")
  /\ errorMessage_textContent
       (snd (sendMessage (always (httpAnswer 401 "Unauthorized" VNull)) "key"
               page0))
     = "Error: Invalid or missing API key. Check your Gemini API key."
  /\ errorMessage_textContent
       (snd (sendMessage (always (httpAnswer 401 "Unauthorized" VNull)) "key"
               page0))
     <> "Invalid or missing API key. Check your Gemini API key.".
Proof.
  split; [reflexivity|]. split; [reflexivity|].
  vm_compute. discriminate.
Qed.

(** A rate-limited exchange: the banner holds the prefixed reason and the
    log holds the user's turn only. *)
Lemma failure_shown_with_prefix_witness :
  exists w',
    sendMessage (always (httpAnswer 429 "Too Many Requests" VNull)) "key"
      page0 = (Normal tt, w')
    /\ errorMessage_textContent w' =
       "Error: Rate limit exceeded. Please wait a moment and try again."
    /\ errorMessage_active w' = true
    /\ chatContainer w' =
       [("message user-message", "<p>What is gravity?</p>")].
Proof.
  destruct (failure_shown_with_prefix
              (always (httpAnswer 429 "Too Many Requests" VNull))
              "key" MODELS_TO_TRY page0 _ _
              (proj1 (String.eqb_neq (Str.trim (userInput_value page0)) "")
                 eq_refl)
              (proj1 (String.eqb_neq "key" "YOUR_API_KEY_HERE") eq_refl)
              eq_refl)
    as [w' [Hrun [Htext [Hactive Hchat]]]].
  exists w'. split; [exact Hrun|]. split; [exact Htext|].
  split; [exact Hactive|]. rewrite Hchat. reflexivity.
Defined.


(** A success without parts on the first candidate: the second is tried. *)
Lemma missing_parts_is_skipped_witness :
  exists reason,
    stopsTheLoop reason = false
    /\ tryModels
         (scripted [httpAnswer 200 "OK" emptyContentBody;
                    httpAnswer 200 "OK" (answerBody "Gravity is...")])
         "key" (makeRequestBody "What is gravity?") ["a"; "b"] None page0
       = tryModels
           (scripted [httpAnswer 200 "OK" emptyContentBody;
                      httpAnswer 200 "OK" (answerBody "Gravity is...")])
           "key" (makeRequestBody "What is gravity?") ["b"] (Some reason)
           (emit (ConsoleWarn "Model a failed:" reason)
              (emit (Fetch (modelRequest "key"
                              (makeRequestBody "What is gravity?") "a"))
                 page0)).
Proof.
  destruct (missing_parts_is_skipped
              (scripted [httpAnswer 200 "OK" emptyContentBody;
                         httpAnswer 200 "OK" (answerBody "Gravity is...")])
              "key" "What is gravity?" [] "a" ["b"] None page0 page0
              _ emptyContentBody (VObject [("role", VString "model")])
              eq_refl eq_refl eq_refl eq_refl)
    as [reason [_ [Hstop Hrun]]].
  - repeat split; try reflexivity; discriminate.
  - left. reflexivity.
  - exists reason. split; [exact Hstop | exact Hrun].
Defined.

(** The markup of the specification's example, escaped and read back. *)
Example escapeHtml_script :
  escapeHtml (always (Rejected (TypeError "Failed to fetch")))
    (VString "<script>alert(1)</script> & more")
  = Normal "&lt;script&gt;alert(1)&lt;/script&gt; &amp; more".
Proof. reflexivity. Qed.

(** The reader tells markup from text: a tag that was not escaped is not
    read as character data, and a [br] is read as an element. *)
Example readInline_examples :
  readInline "<script>alert(1)</script>" = None
  /\ readInline "&lt;script&gt;" = Some [Text "<script>"]
  /\ readInline "one<br>two" = Some [Text "one"; Br; Text "two"]
  /\ readInline "&copy;" = None
  /\ readInline (String "a" (String CR (String LF "b")))
     = Some [Text (String "a" (String LF "b"))]
  /\ readInline (String "a" (String CR (String "<" "br>b")))
     = Some [Text (String "a" (String LF "")); Br; Text "b"]
  /\ readInline (String "a" (String NUL "b")) = Some [Text "ab"].
Proof. repeat split; reflexivity. Qed.

(** A 500 on the first candidate: the Error thrown for it is caught in the
    same pass and the second candidate answers. *)
Example status_500_then_answer :
  fst (getGeminiResponseFrom
         (scripted [httpAnswer 500 "Internal Server Error" VNull;
                    httpAnswer 200 "OK" (answerBody "Gravity is...")])
         "key" ["a"; "b"] "What is gravity?" page0)
  = Normal (VString "Gravity is...")
  /\ trace
       (snd (getGeminiResponseFrom
               (scripted [httpAnswer 500 "Internal Server Error" VNull;
                          httpAnswer 200 "OK" (answerBody "Gravity is...")])
               "key" ["a"; "b"] "What is gravity?" page0))
     = [Fetch (modelRequest "key" (makeRequestBody "What is gravity?") "a");
        ConsoleWarn "Model a failed:"
          "Gemini API server error. Please try again later.";
        Fetch (modelRequest "key" (makeRequestBody "What is gravity?") "b")].
Proof. split; reflexivity. Qed.

(** The whole exchange of the specification's example on the page. *)
Example sendMessage_example :
  let w' :=
    snd (sendMessageFrom
           (scripted [httpAnswer 404 "Not Found" VNull;
                      httpAnswer 200 "OK" (answerBody "Gravity is...")])
           "key" ["a"; "b"] page0) in
  chatContainer w' =
    [("message user-message", "<p>What is gravity?</p>");
     ("message ai-message", "<p>Gravity is...</p>")]
  /\ errorMessage_active w' = false
  /\ userInput_value w' = ""
  /\ sendBtn_disabled w' = false
  /\ loadingIndicator_active w' = false
  /\ List.length (networkCalls (trace w')) = 2.
Proof. repeat split; reflexivity. Qed.

(* ================================================================== *)
(** ** Further properties of the requester *)

Section RequesterFurther.

Variable B : browser.
Variable GEMINI_API_KEY : string.
Variable userMessage : string.

Local Abbreviation body := (makeRequestBody userMessage).
Local Abbreviation loop := (tryModels B GEMINI_API_KEY body).
Local Abbreviation try := (attempt B GEMINI_API_KEY body).
Local Abbreviation guarded model :=
  (try_catch (attempt B GEMINI_API_KEY body model) (attemptFailed model)).
Local Abbreviation requestFor := (modelRequest GEMINI_API_KEY body).
Local Abbreviation answer := (answerAt B GEMINI_API_KEY body).
Local Abbreviation getResponse models :=
  (getGeminiResponseFrom B GEMINI_API_KEY models userMessage).

(** One pass of the loop issues the call of its model and no other. *)
Lemma guarded_calls model w :
  networkCalls (trace (snd (guarded model w))) =
  (networkCalls (trace w) ++ [requestFor model])%list.
Proof.
  unfold try_catch.
  pose proof (attempt_footprint B GEMINI_API_KEY body model w) as Hw.
  destruct (try model w) as [[c|e] w1]; simpl in Hw; subst w1.
  - simpl. rewrite networkCalls_app. reflexivity.
  - unfold attemptFailed. destruct (stopsTheLoop (reasonOf e)).
    + simpl. rewrite networkCalls_app. reflexivity.
    + simpl. rewrite !networkCalls_app. simpl. rewrite app_nil_r. reflexivity.
Qed.

(** The calls of the loop are those of the first [k] models, in order; all
    of them when the loop runs out of models. *)
Lemma tryModels_calls models lastError w :
  exists k,
    k <= List.length models
    /\ networkCalls (trace (snd (loop models lastError w))) =
       (networkCalls (trace w) ++ map requestFor (firstn k models))%list
    /\ (forall lastError',
          fst (loop models lastError w) = Normal (Exhausted lastError') ->
          k = List.length models).
Proof.
  revert lastError w.
  induction models as [|model models IH]; intros lastError w.
  - exists 0. simpl. rewrite app_nil_r.
    split; [lia|]. split; [reflexivity | intros; reflexivity].
  - rewrite tryModels_cons.
    pose proof (guarded_calls model w) as Hcalls.
    destruct (guarded model w) as [[[v|s]|e] w1]; simpl in Hcalls.
    + exists 1. simpl.
      split; [lia|]. split; [exact Hcalls | discriminate].
    + destruct (IH (Some s) w1) as [k [Hk [Hrest Hall]]].
      exists (S k). simpl. split; [lia|]. split.
      * rewrite Hrest, Hcalls, <- app_assoc. reflexivity.
      * intros le Hex. f_equal. eapply Hall, Hex.
    + exists 1. simpl.
      split; [lia|]. split; [exact Hcalls | discriminate].
Qed.

(** Whatever the loop throws is an Error built by the catch clause from a
    reason that holds a trigger word. *)
Lemma tryModels_throws models lastError w e w' :
  loop models lastError w = (Throw e, w') ->
  exists reason, e = Error reason /\ stopsTheLoop reason = true.
Proof.
  revert lastError w.
  induction models as [|model models IH]; intros lastError w; [discriminate|].
  rewrite tryModels_cons. unfold try_catch.
  destruct (try model w) as [[[v|s]|err] w1].
  - discriminate.
  - apply IH.
  - unfold attemptFailed.
    destruct (stopsTheLoop (reasonOf err)) eqn:Hstop.
    + intros H. injection H as <- _. exists (reasonOf err). split; auto.
    + simpl. apply IH.
Qed.

(** X1. Whatever the network answers, the calls of one run of the
    requester are the requests of the first [k] candidates for some [k],
    in the order of the list, each candidate called at most once and all
    with the same body; when the loop runs out of candidates, every one of
    them was called. *)
Theorem calls_follow_the_candidates models w :
  exists k,
    k <= List.length models
    /\ networkCalls (trace (snd (getResponse models w))) =
       (networkCalls (trace w) ++ map requestFor (firstn k models))%list
    /\ (forall lastError,
          fst (loop models None w) = Normal (Exhausted lastError) ->
          k = List.length models).
Proof.
  destruct (tryModels_calls models None w) as [k [Hk [Hcalls Hall]]].
  exists k. split; [exact Hk|]. split; [|exact Hall].
  rewrite getGeminiResponseFrom_loop.
  destruct (loop models None w) as [[[v|le]|e] w1]; exact Hcalls.
Qed.

(** X2. Wherever in the list the candidate stands, a success whose body
    has the expected shape ends the run: its text is returned and the call
    of that candidate is the last effect, so no later candidate is
    called. *)
Theorem first_success_wins pre model rest lastError w0 w r data t :
  loop pre None w0 = (Normal (Exhausted lastError), w) ->
  answer w model = Responded r ->
  ok r = true ->
  json r = JsonData data ->
  expectedText data = Some t ->
  getResponse (pre ++ model :: rest)%list w0 =
  (Normal (VString t), emit (Fetch (requestFor model)) w).
Proof.
  intros Hpre Hr Hok Hjson Ht.
  rewrite getGeminiResponseFrom_loop, (tryModels_at _ _ _ _ _ _ _ _ _ _ Hpre).
  unfold try_catch.
  rewrite (attempt_answer _ _ _ _ _ _ _ _ Hr Hok Hjson Ht). reflexivity.
Qed.

(** X3. Wherever in the list the candidate stands, a response that is not
    ok and whose status is none of 401, 404, 429 and 500 (a 400 or a 403,
    say) does not end the run: the reason made of the model, the status
    and the status text is recorded, no warning is logged, and the loop
    goes on with the next candidate. *)
Theorem other_status_is_skipped pre model rest lastError w0 w r :
  loop pre None w0 = (Normal (Exhausted lastError), w) ->
  answer w model = Responded r ->
  ok r = false ->
  status r <> 401%Z -> status r <> 404%Z ->
  status r <> 429%Z -> status r <> 500%Z ->
  loop (pre ++ model :: rest)%list None w0 =
  loop rest
    (Some ("API Error for model " ++ model ++ ": " ++ Str.ofZ (status r)
           ++ " " ++ statusText r))
    (emit (Fetch (requestFor model)) w).
Proof.
  intros Hpre Hr Hok H401 H404 H429 H500.
  rewrite (tryModels_at _ _ _ _ _ _ _ _ _ _ Hpre). unfold try_catch.
  rewrite (attempt_not_ok _ _ _ _ _ _ Hr Hok).
  apply Z.eqb_neq in H401, H404, H429, H500.
  rewrite H401, H404, H429, H500. reflexivity.
Qed.

(** X4. Wherever in the list the candidate stands, a success whose body is
    not [null] and fails the test of line 177 (no candidates, an empty
    list of candidates, a first candidate without content) does not end
    the run: the reason "Unexpected API response format from model ..." is
    recorded, no warning is logged, and the loop goes on with the next
    candidate. *)
Theorem unexpected_format_is_skipped pre model rest lastError w0 w r data :
  loop pre None w0 = (Normal (Exhausted lastError), w) ->
  answer w model = Responded r ->
  ok r = true ->
  json r = JsonData data ->
  data <> VNull -> data <> VUndefined ->
  formatUnexpected data = true ->
  loop (pre ++ model :: rest)%list None w0 =
  loop rest (Some ("Unexpected API response format from model " ++ model))
    (emit (Fetch (requestFor model)) w).
Proof.
  intros Hpre Hr Hok Hjson Hnull Hundef Hbad.
  rewrite (tryModels_at _ _ _ _ _ _ _ _ _ _ Hpre). unfold try_catch.
  rewrite (attempt_ok _ _ _ _ _ _ _ Hr Hok Hjson).
  rewrite (read_defined _ _ Hnull Hundef), bind_ret.
  unfold formatUnexpected in Hbad.
  destruct (truthy (getProperty data (Dot "candidates"))) eqn:Hc;
    [|reflexivity].
  simpl negb. cbv iota.
  rewrite (read_truthy _ _ Hc), bind_ret.
  destruct (truthy (getProperty (getProperty data (Dot "candidates")) (At 0)))
    eqn:Hc0; [|reflexivity].
  simpl negb. cbv iota.
  rewrite (read_truthy _ _ Hc0), bind_ret.
  simpl in Hbad. apply negb_true_iff in Hbad. rewrite Hbad. reflexivity.
Qed.

(** X5. Wherever in the list the candidate stands, a success whose body is
    the JSON value [null] does not end the run either, but by another
    path: reading [data.candidates] raises a TypeError, which the catch
    clause records as the last error and logs before the loop goes on. *)
Theorem null_body_is_skipped pre model rest lastError w0 w r :
  loop pre None w0 = (Normal (Exhausted lastError), w) ->
  answer w model = Responded r ->
  ok r = true ->
  json r = JsonData VNull ->
  loop (pre ++ model :: rest)%list None w0 =
  loop rest (Some (nullishReadMessage VNull (Dot "candidates")))
    (emit (ConsoleWarn ("Model " ++ model ++ " failed:")
             (nullishReadMessage VNull (Dot "candidates")))
       (emit (Fetch (requestFor model)) w)).
Proof.
  intros Hpre Hr Hok Hjson.
  assert (Htry : try model w =
                 (Throw (TypeError (nullishReadMessage VNull (Dot "candidates"))),
                  emit (Fetch (requestFor model)) w))
    by (rewrite (attempt_ok _ _ _ _ _ _ _ Hr Hok Hjson); reflexivity).
  rewrite (tryModels_exception _ _ _ _ _ rest _ _ _ _ _ _ Hpre Htry).
  reflexivity.
Qed.

(** X6. When the requester fails, what it throws is an Error whose message
    is not empty: either a reason that holds a trigger word, or the last
    recorded reason, or "All models failed". *)
Theorem failure_has_a_reason models w e w' :
  getGeminiResponseFrom B GEMINI_API_KEY models userMessage w = (Throw e, w') ->
  err_name e = "Error" /\ err_message e <> "".
Proof.
  rewrite getGeminiResponseFrom_loop.
  destruct (loop models None w) as [[[v|le]|e1] w1] eqn:Hloop.
  - discriminate.
  - intros H. injection H as <- _. split; [reflexivity|]. simpl.
    destruct le as [s|]; simpl; [|discriminate].
    destruct (String.eqb_spec s ""); [discriminate | assumption].
  - intros H. injection H as <- _.
    destruct (tryModels_throws _ _ _ _ _ Hloop) as [reason [-> Hstop]].
    split; [reflexivity|]. simpl. intros ->. discriminate Hstop.
Qed.

(** X7. A run of the requester, however it ends, leaves the input, the
    button, the loading indicator, the error banner and the log as they
    were; all it adds to the trace are network calls and warnings. *)
Theorem requester_leaves_the_page_alone models w :
  userInput_value (snd (getResponse models w)) = userInput_value w
  /\ sendBtn_disabled (snd (getResponse models w)) = sendBtn_disabled w
  /\ loadingIndicator_active (snd (getResponse models w)) =
     loadingIndicator_active w
  /\ errorMessage_textContent (snd (getResponse models w)) =
     errorMessage_textContent w
  /\ errorMessage_active (snd (getResponse models w)) = errorMessage_active w
  /\ chatContainer (snd (getResponse models w)) = chatContainer w
  /\ exists events,
       trace (snd (getResponse models w)) = (trace w ++ events)%list
       /\ forallb requesterEvent events = true.
Proof.
  destruct (getGeminiResponseFrom_footprint B GEMINI_API_KEY models
              userMessage w) as [events [Hext Hev]].
  unfold extends in Hext. rewrite Hext. simpl.
  repeat (split; [reflexivity|]).
  exists events. split; [reflexivity | exact Hev].
Qed.

End RequesterFurther.

(* ================================================================== *)
(** ** Further properties of the conversation view *)

Lemma read_not_nullish v k :
  nullish v = false -> read v k = ret (getProperty v k).
Proof. destruct v; simpl; intros H; try discriminate; reflexivity. Qed.

(** The try block returns whatever the text field of the body holds. *)
Lemma attempt_answerValue B GEMINI_API_KEY body model w r data v :
  answerAt B GEMINI_API_KEY body w model = Responded r ->
  ok r = true ->
  json r = JsonData data ->
  answerValue data = Some v ->
  attempt B GEMINI_API_KEY body model w =
  (Normal (Return v), emit (Fetch (modelRequest GEMINI_API_KEY body model)) w).
Proof.
  intros Hr Hok Hjson Hv.
  rewrite (attempt_ok _ _ _ _ _ _ _ Hr Hok Hjson).
  unfold answerValue in Hv.
  destruct (nullish data) eqn:Hd; [discriminate|].
  rewrite (read_not_nullish _ _ Hd), bind_ret.
  destruct (truthy (getProperty data (Dot "candidates"))) eqn:Hc;
    [|discriminate].
  simpl negb in *. cbv iota in *.
  rewrite (read_truthy _ _ Hc), bind_ret.
  destruct (truthy (getProperty (getProperty data (Dot "candidates")) (At 0)))
    eqn:Hc0; [|discriminate].
  simpl negb in *. cbv iota in *.
  rewrite (read_truthy _ _ Hc0), bind_ret.
  match type of Hv with
  | (if negb (truthy ?c) then _ else _) = _ =>
      destruct (truthy c) eqn:Hcontent; [|discriminate]
  end.
  simpl negb in *. cbv iota in *.
  rewrite (read_truthy _ _ Hcontent), bind_ret.
  match type of Hv with
  | (if nullish ?p then _ else _) = _ =>
      destruct (nullish p) eqn:Hparts; [discriminate|]
  end.
  rewrite (read_not_nullish _ _ Hparts), bind_ret.
  match type of Hv with
  | (if nullish ?p then _ else _) = _ =>
      destruct (nullish p) eqn:Hpart0; [discriminate|]
  end.
  rewrite (read_not_nullish _ _ Hpart0), bind_ret.
  injection Hv as <-. reflexivity.
Qed.

Section ViewFurther.

Variable B : browser.
Variable GEMINI_API_KEY : string.
Variable models : list string.

Local Abbreviation submit := (sendMessageFrom B GEMINI_API_KEY models).
Local Abbreviation getResponse :=
  (getGeminiResponseFrom B GEMINI_API_KEY models).

(** An accepted submission is the preparation of lines 79-89, the
    requester, and the settling of lines 95-113. *)
Lemma sendMessageFrom_accepted w :
  Str.trim (userInput_value w) <> "" ->
  GEMINI_API_KEY <> "YOUR_API_KEY_HERE" ->
  submit w =
  settle B
    (fst (getResponse (Str.trim (userInput_value w))
            (requestWorld B (Str.trim (userInput_value w)) w)))
    (snd (getResponse (Str.trim (userInput_value w))
            (requestWorld B (Str.trim (userInput_value w)) w))).
Proof.
  intros Hne Hkey. apply String.eqb_neq in Hne, Hkey.
  set (message := Str.trim (userInput_value w)) in *.
  unfold sendMessageFrom.
  unfold bind at 1. unfold userInput_get_value. fold message.
  rewrite Hne, Hkey.
  unfold settle, try_finally, try_catch, bind. simpl.
  unfold requestWorld, bind. simpl.
  destruct (getGeminiResponseFrom _ _ _ _ _) as [[ai|e] w2]; reflexivity.
Qed.

(** The preparation issues no call. *)
Lemma requestWorld_calls message w :
  networkCalls (trace (requestWorld B message w)) = networkCalls (trace w).
Proof.
  unfold requestWorld, bind. simpl. rewrite !networkCalls_app. simpl.
  rewrite !app_nil_r. reflexivity.
Qed.

(** X8. With the placeholder still in place of the key, a submission that
    is not blank is rejected: the banner asks for the key and that is the
    only effect, so no network call is made, nothing is added to the log
    and the input field keeps its content. *)
Theorem missing_key_rejected w :
  Str.trim (userInput_value w) <> "" ->
  GEMINI_API_KEY = "YOUR_API_KEY_HERE" ->
  exists w',
    submit w = (Normal tt, w')
    /\ errorMessage_textContent w' =
       "Please add your Gemini API key to the script"
    /\ errorMessage_active w' = true
    /\ userInput_value w' = userInput_value w
    /\ chatContainer w' = chatContainer w
    /\ sendBtn_disabled w' = sendBtn_disabled w
    /\ trace w' =
       (trace w
        ++ [ShowError "Please add your Gemini API key to the script"])%list.
Proof.
  intros Hne Hkey. apply String.eqb_neq in Hne. apply String.eqb_eq in Hkey.
  eexists. split.
  - unfold sendMessageFrom, bind, userInput_get_value.
    rewrite Hne, Hkey. reflexivity.
  - simpl. repeat split.
Qed.

(** Settling issues no call. *)
Lemma settle_calls outcome w2 :
  networkCalls (trace (snd (settle B outcome w2))) = networkCalls (trace w2).
Proof.
  unfold settle, try_finally, try_catch, displayAIMessage, bind, lift.
  destruct outcome as [ai|e]; simpl;
    [destruct (escapeHtml B ai) as [escaped|err]; simpl|];
    rewrite !networkCalls_app; simpl; rewrite !app_nil_r; reflexivity.
Qed.

(** X9. Whatever the input, the key, the candidates and the network,
    [sendMessage] completes normally: no exception leaves it. *)
Theorem sendMessage_never_throws w :
  fst (sendMessageFrom B GEMINI_API_KEY models w) = Normal tt.
Proof.
  destruct (String.eqb_spec (Str.trim (userInput_value w)) "") as [He|Hne].
  - unfold sendMessageFrom, bind, userInput_get_value.
    rewrite He. reflexivity.
  - destruct (String.eqb_spec GEMINI_API_KEY "YOUR_API_KEY_HERE") as [Hk|Hkey].
    + unfold sendMessageFrom, bind, userInput_get_value.
      apply String.eqb_neq in Hne. apply String.eqb_eq in Hk.
      rewrite Hne, Hk. reflexivity.
    + rewrite (sendMessageFrom_accepted w Hne Hkey).
      unfold settle, try_finally, try_catch, displayAIMessage, bind, lift.
      destruct (fst (getResponse _ _)) as [ai|e]; simpl;
        [destruct (escapeHtml B ai); reflexivity | reflexivity].
Qed.

(** X10. When the requester resolves with a value that [escapeHtml] can
    convert (any string, for one), the exchange leaves the page with the
    user's turn and then the assistant's turn added to the log, the banner
    cleared, the input emptied, the loading indicator hidden and the
    button enabled; the log is scrolled after the assistant's turn is
    added. *)
Theorem successful_exchange w aiResponse escaped w2 :
  Str.trim (userInput_value w) <> "" ->
  GEMINI_API_KEY <> "YOUR_API_KEY_HERE" ->
  getResponse (Str.trim (userInput_value w))
    (requestWorld B (Str.trim (userInput_value w)) w)
  = (Normal aiResponse, w2) ->
  escapeHtml B aiResponse = Normal escaped ->
  exists w',
    submit w = (Normal tt, w')
    /\ chatContainer w' =
       (chatContainer w
        ++ [userTurn (Str.trim (userInput_value w));
            assistantTurn escaped])%list
    /\ errorMessage_textContent w' = ""
    /\ errorMessage_active w' = false
    /\ userInput_value w' = ""
    /\ loadingIndicator_active w' = false
    /\ sendBtn_disabled w' = false
    /\ trace w' =
       (trace w2
        ++ [SetLoading false;
            AppendMessage (fst (assistantTurn escaped))
              (snd (assistantTurn escaped));
            ScrollToBottom; SetSendDisabled false; FocusInput])%list.
Proof.
  intros Hne Hkey Hrun Hesc.
  destruct (getGeminiResponseFrom_footprint B GEMINI_API_KEY models
              (Str.trim (userInput_value w))
              (requestWorld B (Str.trim (userInput_value w)) w))
    as [events [Hext _]].
  rewrite (sendMessageFrom_accepted w Hne Hkey), Hrun.
  rewrite Hrun in Hext. simpl in Hext. unfold extends in Hext.
  unfold settle, try_finally, try_catch, displayAIMessage, bind, lift.
  simpl. rewrite Hesc. simpl.
  eexists. split; [reflexivity|].
  rewrite Hext. simpl. rewrite <- !app_assoc.
  repeat split.
Qed.

(** X18. When the requester resolves with a value that [escapeHtml]
    cannot convert (an object that has a property [toString], say), the
    TypeError of line 277 is caught by [sendMessage]: no assistant's turn
    is added, the banner shows "Error: " and the message of the TypeError,
    the loading indicator is hidden and the button enabled. *)
Theorem unprintable_answer_is_reported w aiResponse error w2 :
  Str.trim (userInput_value w) <> "" ->
  GEMINI_API_KEY <> "YOUR_API_KEY_HERE" ->
  getResponse (Str.trim (userInput_value w))
    (requestWorld B (Str.trim (userInput_value w)) w)
  = (Normal aiResponse, w2) ->
  escapeHtml B aiResponse = Throw error ->
  exists w',
    submit w = (Normal tt, w')
    /\ chatContainer w' =
       (chatContainer w ++ [userTurn (Str.trim (userInput_value w))])%list
    /\ errorMessage_textContent w' = "Error: " ++ err_message error
    /\ errorMessage_active w' = true
    /\ userInput_value w' = ""
    /\ loadingIndicator_active w' = false
    /\ sendBtn_disabled w' = false
    /\ trace w' =
       (trace w2
        ++ [SetLoading false; SetLoading false;
            ShowError ("Error: " ++ err_message error);
            ConsoleError "Full error:" error;
            SetSendDisabled false; FocusInput])%list.
Proof.
  intros Hne Hkey Hrun Hesc.
  destruct (getGeminiResponseFrom_footprint B GEMINI_API_KEY models
              (Str.trim (userInput_value w))
              (requestWorld B (Str.trim (userInput_value w)) w))
    as [events [Hext _]].
  rewrite (sendMessageFrom_accepted w Hne Hkey), Hrun.
  rewrite Hrun in Hext. simpl in Hext. unfold extends in Hext.
  unfold settle, try_finally, try_catch, displayAIMessage, bind, lift.
  simpl. rewrite Hesc. simpl.
  eexists. split; [reflexivity|].
  rewrite Hext. simpl. rewrite <- !app_assoc.
  repeat split.
Qed.

(** X11. When the requester fails, the exchange leaves the page with the
    user's turn alone added to the log, the input still emptied, the
    loading indicator hidden and the button enabled; the error is also
    written to the console. *)
Theorem failed_exchange w e w2 :
  Str.trim (userInput_value w) <> "" ->
  GEMINI_API_KEY <> "YOUR_API_KEY_HERE" ->
  getResponse (Str.trim (userInput_value w))
    (requestWorld B (Str.trim (userInput_value w)) w)
  = (Throw e, w2) ->
  exists w',
    submit w = (Normal tt, w')
    /\ chatContainer w' =
       (chatContainer w ++ [userTurn (Str.trim (userInput_value w))])%list
    /\ userInput_value w' = ""
    /\ loadingIndicator_active w' = false
    /\ sendBtn_disabled w' = false
    /\ trace w' =
       (trace w2
        ++ [SetLoading false;
            ShowError ("Error: " ++ err_message e);
            ConsoleError "Full error:" e;
            SetSendDisabled false; FocusInput])%list.
Proof.
  intros Hne Hkey Hrun.
  destruct (getGeminiResponseFrom_footprint B GEMINI_API_KEY models
              (Str.trim (userInput_value w))
              (requestWorld B (Str.trim (userInput_value w)) w))
    as [events [Hext _]].
  rewrite (sendMessageFrom_accepted w Hne Hkey), Hrun.
  rewrite Hrun in Hext. simpl in Hext. unfold extends in Hext.
  eexists. split; [reflexivity|].
  rewrite Hext. simpl. rewrite <- !app_assoc.
  repeat split.
Qed.

(** X12. The effects of one accepted invocation come in this order: the
    five effects of its preparation (banner cleared, user's turn added,
    input emptied, button disabled, loading indicator shown), then its
    calls and warnings and nothing else, then effects that start with
    hiding the indicator and hold no call.  This is the order of the
    invocation's own effects; it says nothing of what another invocation
    does meanwhile. *)
Theorem own_calls_between_prepare_and_settle w :
  Str.trim (userInput_value w) <> "" ->
  GEMINI_API_KEY <> "YOUR_API_KEY_HERE" ->
  exists events closing,
    trace (snd (submit w)) =
    (trace w
     ++ [ClearError;
         AppendMessage (fst (userTurn (Str.trim (userInput_value w))))
           (snd (userTurn (Str.trim (userInput_value w))));
         SetInputValue ""; SetSendDisabled true; SetLoading true]
     ++ events
     ++ SetLoading false :: closing)%list
    /\ forallb requesterEvent events = true
    /\ networkCalls closing = [].
Proof.
  intros Hne Hkey.
  destruct (getGeminiResponseFrom_footprint B GEMINI_API_KEY models
              (Str.trim (userInput_value w))
              (requestWorld B (Str.trim (userInput_value w)) w))
    as [events [Hext Hev]].
  rewrite (sendMessageFrom_accepted w Hne Hkey).
  unfold extends in Hext.
  unfold settle, try_finally, try_catch, displayAIMessage, bind, lift.
  destruct (getResponse _ _) as [[ai|e] w2]; simpl in Hext |- *;
    [destruct (escapeHtml B ai) as [escaped|err]; simpl|];
    rewrite Hext; simpl; exists events; eexists;
    (split; [rewrite <- !app_assoc; reflexivity
            | split; [exact Hev | reflexivity]]).
Qed.

(** X19. [sendMessage] does not look at the button: on an accepted input
    it runs the same, to the same end, whether the page it starts from has
    the button disabled and the loading indicator shown or not. *)
Theorem submission_ignores_the_busy_state w disabled loading :
  Str.trim (userInput_value w) <> "" ->
  GEMINI_API_KEY <> "YOUR_API_KEY_HERE" ->
  sendMessageFrom B GEMINI_API_KEY models (withBusy disabled loading w) =
  sendMessageFrom B GEMINI_API_KEY models w.
Proof.
  intros Hne Hkey.
  rewrite (sendMessageFrom_accepted w Hne Hkey).
  rewrite (sendMessageFrom_accepted (withBusy disabled loading w) Hne Hkey).
  reflexivity.
Qed.

(** X13. The calls of an accepted exchange are the requests of the first
    [k] candidates for some [k], in order, and every one of them carries
    the body built from the trimmed input of this exchange alone. *)
Theorem exchange_sends_the_trimmed_input w :
  Str.trim (userInput_value w) <> "" ->
  GEMINI_API_KEY <> "YOUR_API_KEY_HERE" ->
  exists k,
    k <= List.length models
    /\ networkCalls (trace (snd (submit w))) =
       (networkCalls (trace w)
        ++ map (modelRequest GEMINI_API_KEY
                  (makeRequestBody (Str.trim (userInput_value w))))
             (firstn k models))%list.
Proof.
  intros Hne Hkey.
  destruct (tryModels_calls B GEMINI_API_KEY (Str.trim (userInput_value w))
              models None (requestWorld B (Str.trim (userInput_value w)) w))
    as [k [Hk [Hcalls _]]].
  exists k. split; [exact Hk|].
  rewrite requestWorld_calls in Hcalls. rewrite <- Hcalls.
  rewrite (sendMessageFrom_accepted w Hne Hkey), settle_calls.
  rewrite getGeminiResponseFrom_loop.
  destruct (tryModels _ _ _ _ _ _) as [[[v|le]|e] w2]; reflexivity.
Qed.

(** X14. A success of the first candidate whose part holds no text (or the
    text [null]) is not treated as a failure: the requester resolves with
    that value, and the exchange adds an empty paragraph as the
    assistant's turn, with no error shown. *)
Theorem missing_text_renders_empty model rest w r data v :
  models = model :: rest ->
  Str.trim (userInput_value w) <> "" ->
  GEMINI_API_KEY <> "YOUR_API_KEY_HERE" ->
  answerAt B GEMINI_API_KEY (makeRequestBody (Str.trim (userInput_value w)))
    (requestWorld B (Str.trim (userInput_value w)) w) model = Responded r ->
  ok r = true ->
  json r = JsonData data ->
  answerValue data = Some v ->
  nullish v = true ->
  exists w',
    submit w = (Normal tt, w')
    /\ chatContainer w' =
       (chatContainer w
        ++ [userTurn (Str.trim (userInput_value w));
            ("message ai-message", "<p></p>")])%list
    /\ errorMessage_active w' = false
    /\ List.length (networkCalls (trace w')) =
       S (List.length (networkCalls (trace w))).
Proof.
  intros Hmodels Hne Hkey Hr Hok Hjson Hv Hnull.
  assert (Hrun :
            getResponse (Str.trim (userInput_value w))
              (requestWorld B (Str.trim (userInput_value w)) w)
            = (Normal v,
               emit (Fetch (modelRequest GEMINI_API_KEY
                              (makeRequestBody (Str.trim (userInput_value w)))
                              model))
                 (requestWorld B (Str.trim (userInput_value w)) w))).
  { rewrite getGeminiResponseFrom_loop, Hmodels, tryModels_cons.
    unfold try_catch.
    rewrite (attempt_answerValue _ _ _ _ _ _ _ _ Hr Hok Hjson Hv).
    reflexivity. }
  rewrite (sendMessageFrom_accepted w Hne Hkey), Hrun.
  assert (Hhtml : escapeHtml B v = Normal "")
    by (destruct v; try discriminate; reflexivity).
  unfold settle, try_finally, try_catch, displayAIMessage, bind, lift.
  simpl. rewrite Hhtml. simpl.
  eexists. split; [reflexivity|].
  unfold requestWorld, bind, lift. simpl.
  rewrite <- !app_assoc. split; [reflexivity|]. split; [reflexivity|].
  rewrite !networkCalls_app. simpl. rewrite length_app. simpl. lia.
Qed.

(** X15. [sendMessage] only ever adds to the log: what was there stays, in
    order, and one run adds nothing, the user's turn, or the user's turn
    followed by the assistant's. *)
Theorem log_only_grows w :
  exists added,
    chatContainer (snd (submit w)) = (chatContainer w ++ added)%list
    /\ (added = []
        \/ added = [userTurn (Str.trim (userInput_value w))]
        \/ exists aiResponse escaped,
             escapeHtml B aiResponse = Normal escaped
             /\ added = [userTurn (Str.trim (userInput_value w));
                         assistantTurn escaped]).
Proof.
  destruct (String.eqb_spec (Str.trim (userInput_value w)) "") as [He|Hne].
  - exists []. split; [|left; reflexivity].
    unfold sendMessageFrom, bind, userInput_get_value.
    rewrite He. simpl. symmetry. apply app_nil_r.
  - destruct (String.eqb_spec GEMINI_API_KEY "YOUR_API_KEY_HERE") as [Hk|Hkey].
    + exists []. split; [|left; reflexivity].
      unfold sendMessageFrom, bind, userInput_get_value.
      apply String.eqb_neq in Hne. apply String.eqb_eq in Hk.
      rewrite Hne, Hk. simpl. symmetry. apply app_nil_r.
    + destruct (getGeminiResponseFrom_footprint B GEMINI_API_KEY models
                  (Str.trim (userInput_value w))
                  (requestWorld B (Str.trim (userInput_value w)) w))
        as [events [Hext _]].
      rewrite (sendMessageFrom_accepted w Hne Hkey).
      unfold extends in Hext.
      unfold settle, try_finally, try_catch, displayAIMessage, bind, lift.
      destruct (getResponse _ _) as [[ai|e] w2]; simpl in Hext |- *;
        [destruct (escapeHtml B ai) as [escaped|err] eqn:Hesc; simpl|];
        rewrite Hext; simpl.
      * eexists. split; [rewrite <- app_assoc; reflexivity|].
        right. right. exists ai, escaped. split; [exact Hesc | reflexivity].
      * eexists. split; [reflexivity|]. right. left. reflexivity.
      * eexists. split; [reflexivity|]. right. left. reflexivity.
Qed.

End ViewFurther.

(* ================================================================== *)
(** ** Further properties of the escaping *)

Lemma addText_text s t older :
  addText s (Text t :: older) = Text (t ++ dropNul s) :: older.
Proof.
  revert t. induction s as [|c s IH]; intros t; simpl.
  - rewrite append_empty_r. reflexivity.
  - destruct (Ascii.eqb c NUL); [apply IH|].
    simpl. rewrite IH, append_assoc. reflexivity.
Qed.

Lemma addText_nil s :
  addText s [] =
  match dropNul s with
  | EmptyString => []
  | t => [Text t]
  end.
Proof.
  induction s as [|c s IH]; simpl; [reflexivity|].
  destruct (Ascii.eqb c NUL); [exact IH|].
  simpl. rewrite addText_text. reflexivity.
Qed.

(** X16. For a string [escapeHtml] does not throw, and its markup reads
    back as one text node (none when nothing is left) that holds the
    string as the parser takes character data: CR LF and CR turned into
    LF, U+0000 dropped, every other character as it is.  For a string
    that holds neither CR nor U+0000 the node holds exactly the string. *)
Theorem escaped_text_is_one_text_node (B : browser) (s : string) :
  exists escaped,
    escapeHtml B (VString s) = Normal escaped
    /\ readInline escaped =
       Some (match parsedText s with
             | EmptyString => []
             | t => [Text t]
             end)
    /\ (plain s = true -> parsedText s = s).
Proof.
  exists (serializeText s). split; [reflexivity|]. split.
  - rewrite readInline_serializeText, addText_nil.
    unfold parsedText. destruct (dropNul (normalizeNewlines s)); reflexivity.
  - apply parsedText_plain.
Qed.

Lemma escapeChar_no_angle_brackets c :
  hasChar "<" (escapeChar c) = false /\ hasChar ">" (escapeChar c) = false.
Proof.
  unfold escapeChar.
  destruct (Ascii.eqb c "&"); [split; reflexivity|].
  destruct (Ascii.eqb c NBSP); [split; reflexivity|].
  destruct (Ascii.eqb c "<") eqn:Hlt; [split; reflexivity|].
  destruct (Ascii.eqb c ">") eqn:Hgt; [split; reflexivity|].
  simpl. rewrite Hlt, Hgt. split; reflexivity.
Qed.

Lemma serializeText_no_angle_brackets s :
  hasChar "<" (serializeText s) = false
  /\ hasChar ">" (serializeText s) = false.
Proof.
  induction s as [|c s [IHlt IHgt]]; simpl; [split; reflexivity|].
  destruct (escapeChar_no_angle_brackets c) as [Hlt Hgt].
  rewrite !hasChar_append, Hlt, Hgt, IHlt, IHgt. split; reflexivity.
Qed.

(** X17. Whatever value is escaped, a string or not: when [escapeHtml]
    returns, the result holds no less-than and no greater-than sign; when
    it throws, the value is one that ToString cannot convert and the
    exception is the TypeError of that conversion. *)
Theorem escaped_text_has_no_angle_brackets (B : browser) (v : value) :
  (forall escaped,
     escapeHtml B v = Normal escaped ->
     hasChar "<" escaped = false /\ hasChar ">" escaped = false)
  /\
  (forall error,
     escapeHtml B v = Throw error ->
     error = notPrimitive /\ toString B v = None).
Proof.
  unfold escapeHtml, textContentOf. split.
  - intros escaped H.
    destruct v; try destruct (toString B _); try discriminate;
      injection H as <-;
      first [apply serializeText_no_angle_brackets | split; reflexivity].
  - intros error H.
    destruct v; try discriminate;
      destruct (toString B _) eqn:Hs; try discriminate;
      injection H as <-; split; reflexivity.
Qed.

(* ================================================================== *)
(** ** Concrete runs of the further properties *)

(** No model known: the five shipped candidates are called in order. *)
Lemma calls_follow_the_candidates_witness :
  networkCalls
    (trace
       (snd (getGeminiResponseFrom (always (httpAnswer 404 "Not Found" VNull))
               "key" MODELS_TO_TRY "What is gravity?" page0)))
  = map (modelRequest "key" (makeRequestBody "What is gravity?"))
      MODELS_TO_TRY.
Proof.
  destruct (calls_follow_the_candidates
              (always (httpAnswer 404 "Not Found" VNull))
              "key" "What is gravity?" MODELS_TO_TRY page0)
    as [k [_ [Hcalls Hall]]].
  rewrite Hcalls, (Hall _ eq_refl). reflexivity.
Defined.

(** The third of four candidates answers: the fourth is not called. *)
Lemma first_success_wins_witness :
  fst (getGeminiResponseFrom
         (scripted [httpAnswer 404 "Not Found" VNull;
                    httpAnswer 503 "Service Unavailable" VNull;
                    httpAnswer 200 "OK" (answerBody "Gravity is...")])
         "key" ["a"; "b"; "c"; "d"] "What is gravity?" page0)
  = Normal (VString "Gravity is...")
  /\ List.length
       (networkCalls
          (trace
             (snd (getGeminiResponseFrom
                     (scripted [httpAnswer 404 "Not Found" VNull;
                                httpAnswer 503 "Service Unavailable" VNull;
                                httpAnswer 200 "OK"
                                  (answerBody "Gravity is...")])
                     "key" ["a"; "b"; "c"; "d"] "What is gravity?" page0))))
     = 3.
Proof.
  pose proof
    (first_success_wins
       (scripted [httpAnswer 404 "Not Found" VNull;
                  httpAnswer 503 "Service Unavailable" VNull;
                  httpAnswer 200 "OK" (answerBody "Gravity is...")])
       "key" "What is gravity?" ["a"; "b"] "c" ["d"] _ page0 _ _ _ _
       eq_refl eq_refl eq_refl eq_refl eq_refl) as H.
  change (["a"; "b"] ++ ["c"; "d"])%list with ["a"; "b"; "c"; "d"] in H.
  rewrite H. split; reflexivity.
Defined.

(** A 403 on the first of two candidates. *)
Lemma other_status_is_skipped_witness :
  tryModels (scripted [httpAnswer 403 "Forbidden" VNull])
    "key" (makeRequestBody "What is gravity?") ["a"; "b"] None page0
  = tryModels (scripted [httpAnswer 403 "Forbidden" VNull])
      "key" (makeRequestBody "What is gravity?") ["b"]
      (Some "API Error for model a: 403 Forbidden")
      (emit (Fetch (modelRequest "key" (makeRequestBody "What is gravity?")
                      "a"))
         page0).
Proof.
  apply (other_status_is_skipped (scripted [httpAnswer 403 "Forbidden" VNull])
           "key" "What is gravity?" [] "a" ["b"] None page0 page0 _
           eq_refl eq_refl eq_refl);
    simpl; lia.
Defined.

(** A blocked prompt: the body has no candidates. *)
Lemma unexpected_format_is_skipped_witness :
  tryModels (scripted [httpAnswer 200 "OK" blockedBody])
    "key" (makeRequestBody "What is gravity?") ["a"; "b"] None page0
  = tryModels (scripted [httpAnswer 200 "OK" blockedBody])
      "key" (makeRequestBody "What is gravity?") ["b"]
      (Some "Unexpected API response format from model a")
      (emit (Fetch (modelRequest "key" (makeRequestBody "What is gravity?")
                      "a"))
         page0).
Proof.
  apply (unexpected_format_is_skipped
           (scripted [httpAnswer 200 "OK" blockedBody])
           "key" "What is gravity?" [] "a" ["b"] None page0 page0 _ blockedBody
           eq_refl eq_refl eq_refl eq_refl);
    [discriminate | discriminate | reflexivity].
Defined.

(** A success with the body [null]. *)
Lemma null_body_is_skipped_witness :
  tryModels (scripted [httpAnswer 200 "OK" VNull])
    "key" (makeRequestBody "What is gravity?") ["a"; "b"] None page0
  = tryModels (scripted [httpAnswer 200 "OK" VNull])
      "key" (makeRequestBody "What is gravity?") ["b"]
      (Some "Cannot read properties of null (reading 'candidates')")
      (emit (ConsoleWarn "Model a failed:"
               "Cannot read properties of null (reading 'candidates')")
         (emit (Fetch (modelRequest "key"
                         (makeRequestBody "What is gravity?") "a"))
            page0)).
Proof.
  exact (null_body_is_skipped (scripted [httpAnswer 200 "OK" VNull])
           "key" "What is gravity?" [] "a" ["b"] None page0 page0 _
           eq_refl eq_refl eq_refl eq_refl).
Defined.

(** The network down for every candidate: the reason of the failure is
    the one of the transport. *)
Lemma failure_has_a_reason_witness :
  exists e w',
    getGeminiResponseFrom (scripted []) "key" MODELS_TO_TRY
      "What is gravity?" page0 = (Throw e, w')
    /\ err_name e = "Error" /\ err_message e <> "".
Proof.
  eexists. eexists. split; [reflexivity|].
  exact (failure_has_a_reason (scripted []) "key" "What is gravity?"
           MODELS_TO_TRY page0 _ _ eq_refl).
Defined.

(** The script as it is handed out, before a key is put in. *)
Lemma missing_key_rejected_witness :
  exists w',
    sendMessage (always (httpAnswer 200 "OK" (answerBody "Gravity is...")))
      "YOUR_API_KEY_HERE" page0 = (Normal tt, w')
    /\ errorMessage_textContent w' =
       "Please add your Gemini API key to the script"
    /\ errorMessage_active w' = true
    /\ userInput_value w' = userInput_value page0
    /\ chatContainer w' = chatContainer page0
    /\ sendBtn_disabled w' = sendBtn_disabled page0
    /\ trace w' =
       (trace page0
        ++ [ShowError "Please add your Gemini API key to the script"])%list.
Proof.
  exact (missing_key_rejected
           (always (httpAnswer 200 "OK" (answerBody "Gravity is...")))
           "YOUR_API_KEY_HERE" MODELS_TO_TRY page0
           (proj1 (String.eqb_neq (Str.trim (userInput_value page0)) "")
              eq_refl)
           eq_refl).
Defined.

(** An exchange that succeeds at the first candidate. *)
Lemma successful_exchange_witness :
  exists w',
    sendMessage (always (httpAnswer 200 "OK" (answerBody "Gravity is...")))
      "key" page0 = (Normal tt, w')
    /\ chatContainer w' =
       [("message user-message", "<p>What is gravity?</p>");
        ("message ai-message", "<p>Gravity is...</p>")]
    /\ errorMessage_active w' = false
    /\ userInput_value w' = ""
    /\ loadingIndicator_active w' = false
    /\ sendBtn_disabled w' = false.
Proof.
  destruct (successful_exchange
              (always (httpAnswer 200 "OK" (answerBody "Gravity is...")))
              "key" MODELS_TO_TRY page0 _ _ _
              (proj1 (String.eqb_neq (Str.trim (userInput_value page0)) "")
                 eq_refl)
              (proj1 (String.eqb_neq "key" "YOUR_API_KEY_HERE") eq_refl)
              eq_refl eq_refl)
    as [w' [Hrun [Hchat [_ [Herr [Hinput [Hload [Hbtn _]]]]]]]].
  exists w'. split; [exact Hrun|]. split; [rewrite Hchat; reflexivity|].
  repeat split; assumption.
Defined.

(** An exchange in which every candidate is unknown. *)
Lemma failed_exchange_witness :
  exists w',
    sendMessage (always (httpAnswer 404 "Not Found" VNull)) "key" page0
    = (Normal tt, w')
    /\ chatContainer w' =
       [("message user-message", "<p>What is gravity?</p>")]
    /\ userInput_value w' = ""
    /\ loadingIndicator_active w' = false
    /\ sendBtn_disabled w' = false
    /\ errorMessage_textContent w' =
       "Error: Model gemini-pro not found (404).".
Proof.
  destruct (failed_exchange
              (always (httpAnswer 404 "Not Found" VNull))
              "key" MODELS_TO_TRY page0 _ _
              (proj1 (String.eqb_neq (Str.trim (userInput_value page0)) "")
                 eq_refl)
              (proj1 (String.eqb_neq "key" "YOUR_API_KEY_HERE") eq_refl)
              eq_refl)
    as [w' [Hrun [Hchat [Hinput [Hload [Hbtn _]]]]]].
  exists w'. split; [exact Hrun|]. split; [rewrite Hchat; reflexivity|].
  repeat split; try assumption.
  injection Hrun as <-. reflexivity.
Defined.

(** The trace of an exchange that succeeds at the second candidate. *)
Lemma own_calls_between_prepare_and_settle_witness :
  exists events closing,
    trace
      (snd (sendMessageFrom
              (scripted [httpAnswer 404 "Not Found" VNull;
                         httpAnswer 200 "OK" (answerBody "Gravity is...")])
              "key" ["a"; "b"] page0)) =
    ([ClearError;
      AppendMessage "message user-message" "<p>What is gravity?</p>";
      SetInputValue ""; SetSendDisabled true; SetLoading true]
     ++ events
     ++ SetLoading false :: closing)%list
    /\ forallb requesterEvent events = true
    /\ networkCalls closing = [].
Proof.
  destruct (own_calls_between_prepare_and_settle
              (scripted [httpAnswer 404 "Not Found" VNull;
                         httpAnswer 200 "OK" (answerBody "Gravity is...")])
              "key" ["a"; "b"] page0
              (proj1 (String.eqb_neq (Str.trim (userInput_value page0)) "")
                 eq_refl)
              (proj1 (String.eqb_neq "key" "YOUR_API_KEY_HERE") eq_refl))
    as [events [closing [Htrace [Hev Hclosing]]]].
  exists events, closing. split; [exact Htrace|]. split; assumption.
Defined.

(** The input of the sample page is sent without the blanks around it. *)
Lemma exchange_sends_the_trimmed_input_witness :
  exists k,
    k <= 2
    /\ networkCalls
         (trace
            (snd (sendMessageFrom
                    (scripted [httpAnswer 404 "Not Found" VNull;
                               httpAnswer 200 "OK"
                                 (answerBody "Gravity is...")])
                    "key" ["a"; "b"] page0)))
       = map (modelRequest "key" (makeRequestBody "What is gravity?"))
           (firstn k ["a"; "b"]).
Proof.
  exact (exchange_sends_the_trimmed_input
           (scripted [httpAnswer 404 "Not Found" VNull;
                      httpAnswer 200 "OK" (answerBody "Gravity is...")])
           "key" ["a"; "b"] page0
           (proj1 (String.eqb_neq (Str.trim (userInput_value page0)) "")
              eq_refl)
           (proj1 (String.eqb_neq "key" "YOUR_API_KEY_HERE") eq_refl)).
Defined.

(** An answer whose part holds no text. *)
Lemma missing_text_renders_empty_witness :
  exists w',
    sendMessage (always (httpAnswer 200 "OK" noTextBody)) "key" page0
    = (Normal tt, w')
    /\ chatContainer w' =
       [("message user-message", "<p>What is gravity?</p>");
        ("message ai-message", "<p></p>")]
    /\ errorMessage_active w' = false
    /\ List.length (networkCalls (trace w')) = 1.
Proof.
  destruct (missing_text_renders_empty
              (always (httpAnswer 200 "OK" noTextBody))
              "key" MODELS_TO_TRY "gemini-2.5-flash" _ page0 _ noTextBody
              VUndefined eq_refl
              (proj1 (String.eqb_neq (Str.trim (userInput_value page0)) "")
                 eq_refl)
              (proj1 (String.eqb_neq "key" "YOUR_API_KEY_HERE") eq_refl)
              eq_refl eq_refl eq_refl eq_refl eq_refl)
    as [w' [Hrun [Hchat [Herr Hcalls]]]].
  exists w'. split; [exact Hrun|]. split; [rewrite Hchat; reflexivity|].
  split; [exact Herr | exact Hcalls].
Defined.

(** A message with markup and a line break, shown as the assistant's and
    as the user's. *)
Lemma messages_render_as_text_witness :
  (exists nodes,
     paragraphOf "<p>&lt;b&gt;one&lt;/b&gt;<br>2 &gt; 1 &amp; so on</p>"
     = Some nodes
     /\ brCount nodes = 1
     /\ visibleText nodes
        = "<b>one</b>" ++ String LF "2 > 1 & so on"
     /\ forallb singleLine nodes = true)
  /\
  (exists nodes,
     paragraphOf "<p>&lt;b&gt;one&lt;/b&gt; 2 &gt; 1 &amp; so on</p>"
     = Some nodes
     /\ forallb isText nodes = true
     /\ visibleText nodes = "<b>one</b> 2 > 1 & so on").
Proof.
  split.
  - destruct (messages_render_as_text
                (always (Rejected (TypeError "Failed to fetch")))
                ("<b>one</b>" ++ String LF "2 > 1 & so on") page0)
      as [_ [w' [escaped [nodes [Hesc [_ [_ [Hpar [Hbr [_ Hplain]]]]]]]]]].
    injection Hesc as <-.
    destruct (Hplain eq_refl) as [Hvisible Hlines].
    exists nodes. split; [exact Hpar|]. split; [exact Hbr|].
    split; [exact Hvisible | exact Hlines].
  - destruct (messages_render_as_text
                (always (Rejected (TypeError "Failed to fetch")))
                "<b>one</b> 2 > 1 & so on" page0)
      as [[w' [escaped [nodes [Hesc [_ [_ [Hpar [Htext [_ Hplain]]]]]]]]] _].
    injection Hesc as <-.
    exists nodes. split; [exact Hpar|]. split; [exact Htext|].
    exact (Hplain eq_refl).
Defined.

(** A comparison, escaped and read back. *)
Lemma escaped_text_is_one_text_node_witness :
  readInline "a &lt; b" = Some [Text "a < b"].
Proof.
  destruct (escaped_text_is_one_text_node
              (always (Rejected (TypeError "Failed to fetch"))) "a < b")
    as [escaped [Hesc [Hread Hplain]]].
  injection Hesc as <-. rewrite (Hplain eq_refl) in Hread. exact Hread.
Defined.

(** A string is escaped; an object with a property [toString] is not
    converted. *)
Lemma escaped_text_has_no_angle_brackets_witness :
  (hasChar "<" "&lt;b&gt;" = false /\ hasChar ">" "&lt;b&gt;" = false)
  /\ toString (always (Rejected (TypeError "Failed to fetch")))
       (VObject [("toString", VNumber (1 # 1))]) = None.
Proof.
  split.
  - exact (proj1 (escaped_text_has_no_angle_brackets
                    (always (Rejected (TypeError "Failed to fetch")))
                    (VString "<b>")) _ eq_refl).
  - exact (proj2 (proj2 (escaped_text_has_no_angle_brackets
                           (always (Rejected (TypeError "Failed to fetch")))
                           (VObject [("toString", VNumber (1 # 1))]))
                    _ eq_refl)).
Defined.

(** An answer whose text is an object with a property [toString]. *)
Lemma unprintable_answer_is_reported_witness :
  exists w',
    sendMessage (always (httpAnswer 200 "OK" unprintableBody)) "key" page0
    = (Normal tt, w')
    /\ chatContainer w' =
       [("message user-message", "<p>What is gravity?</p>")]
    /\ errorMessage_textContent w' =
       "Error: Cannot convert object to primitive value"
    /\ errorMessage_active w' = true
    /\ loadingIndicator_active w' = false
    /\ sendBtn_disabled w' = false.
Proof.
  destruct (unprintable_answer_is_reported
              (always (httpAnswer 200 "OK" unprintableBody))
              "key" MODELS_TO_TRY page0 _ _ _
              (proj1 (String.eqb_neq (Str.trim (userInput_value page0)) "")
                 eq_refl)
              (proj1 (String.eqb_neq "key" "YOUR_API_KEY_HERE") eq_refl)
              eq_refl eq_refl)
    as [w' [Hrun [Hchat [Htext [Hactive [_ [Hload [Hbtn _]]]]]]]].
  exists w'. split; [exact Hrun|]. split; [rewrite Hchat; reflexivity|].
  repeat split; assumption.
Defined.

(** The sample page with an exchange already in flight. *)
Lemma submission_ignores_the_busy_state_witness :
  sendMessage (always (httpAnswer 200 "OK" (answerBody "Gravity is...")))
    "key" (withBusy true true page0)
  = sendMessage (always (httpAnswer 200 "OK" (answerBody "Gravity is...")))
      "key" page0.
Proof.
  exact (submission_ignores_the_busy_state
           (always (httpAnswer 200 "OK" (answerBody "Gravity is...")))
           "key" MODELS_TO_TRY page0 true true
           (proj1 (String.eqb_neq (Str.trim (userInput_value page0)) "")
              eq_refl)
           (proj1 (String.eqb_neq "key" "YOUR_API_KEY_HERE") eq_refl)).
Defined.
